(** * Megatron module.py: precision boundary wrapper and shared embeddings

    A shallow embedding of [megatron/model/module.py]: the nested
    list/tuple walk [conversion_helper], the two boundary conversions
    [fp32_to_float16] and [float16_to_fp32], [Float16Module] and the
    pipeline-aware embedding code of [MegatronModule].

    The tensor framework is external to the module.  Its element casts
    and the class of object a cast returns are section variables; a
    tensor is a record of its class, backend, layout, element type,
    shape and elements; the legacy tensor types the module tests
    against ([torch.FloatTensor], [torch.cuda.FloatTensor], ...) are the
    dense tensors of the CPU and CUDA backends.  Container values are
    the builtin [list] and [tuple]. *)

From Stdlib Require Import String List Bool ZArith Lia SpecFloat.
Import ListNotations.
Local Open Scope string_scope.
Local Open Scope list_scope.

(** ** Tensor types *)

Inductive dtype : Type :=
| Float32 | Float64 | Float16 | BFloat16
| UInt8 | Int8 | Int16 | Int32 | Int64 | Bool8.

(** Where a tensor lives: the two backends that have legacy tensor
    types in the module, or another device (meta, xla, ...). *)
Inductive backend : Type := CPU | CUDA | OtherDevice.

(** Dense (strided) or sparse storage. *)
Inductive layout : Type := Strided | Sparse.

(** The class of a tensor object: a plain tensor, or one of the two the
    module unwraps through [.data]. *)
Inductive pyclass : Type := TensorC | ParameterC | VariableC.

(** A legacy tensor type such as [torch.cuda.HalfTensor]. *)
Inductive tensor_type : Type := TT (b : backend) (l : layout) (d : dtype).

Definition dtype_eqb (a b : dtype) : bool :=
  match a, b with
  | Float32, Float32 | Float64, Float64 | Float16, Float16
  | BFloat16, BFloat16 | UInt8, UInt8 | Int8, Int8 | Int16, Int16
  | Int32, Int32 | Int64, Int64 | Bool8, Bool8 => true
  | _, _ => false
  end.

Definition backend_eqb (a b : backend) : bool :=
  match a, b with
  | CPU, CPU | CUDA, CUDA | OtherDevice, OtherDevice => true
  | _, _ => false
  end.

Definition layout_eqb (a b : layout) : bool :=
  match a, b with
  | Strided, Strided | Sparse, Sparse => true
  | _, _ => false
  end.

Definition tensor_type_eqb (a b : tensor_type) : bool :=
  match a, b with
  | TT b1 l1 d1, TT b2 l2 d2 =>
      backend_eqb b1 b2 && layout_eqb l1 l2 && dtype_eqb d1 d2
  end.

(** The legacy dense tensor types [torch.FloatTensor],
    [torch.cuda.FloatTensor] and so on. *)
Definition torch_Tensor (d : dtype) : tensor_type := TT CPU Strided d.
Definition torch_cuda_Tensor (d : dtype) : tensor_type := TT CUDA Strided d.

(** [_FLOAT_TYPES], [_HALF_TYPES] and [_BF16_TYPES] of the module. *)
Definition _FLOAT_TYPES : list tensor_type :=
  [torch_Tensor Float32; torch_cuda_Tensor Float32].
Definition _HALF_TYPES : list tensor_type :=
  [torch_Tensor Float16; torch_cuda_Tensor Float16].
Definition _BF16_TYPES : list tensor_type :=
  [torch_Tensor BFloat16; torch_cuda_Tensor BFloat16].

(** Non-tensor leaves. *)
Inductive atom : Type :=
| PyNone
| PyInt (z : Z)
| PyBool (b : bool)
| PyStr (s : string).

Section Torch.

(** Elements of a tensor, the element written by [fill_(0)], the element
    cast between two element types, and the class of the object a cast
    returns. *)
Variable scalar : Type.
Variable zero : scalar.
Variable cast_scalar : dtype -> dtype -> scalar -> scalar.
Variable cast_class : pyclass -> pyclass.

Record tensor : Type := mkTensor {
  t_class : pyclass;
  t_backend : backend;
  t_layout : layout;
  t_dtype : dtype;
  t_shape : list nat;
  t_data : list scalar
}.

Definition type_of (t : tensor) : tensor_type :=
  TT (t_backend t) (t_layout t) (t_dtype t).

(** Python values that reach the conversions. *)
#[local] Unset Elimination Schemes.
Inductive pyval : Type :=
| PTensor (t : tensor)
| PAtom (a : atom)
| PList (vs : list pyval)
| PTuple (vs : list pyval).
#[local] Set Elimination Schemes.

(** ** isinstance tests *)

Definition isinstance_tuple (val : pyval) : bool :=
  match val with PTuple _ => true | _ => false end.

Definition isinstance_list (val : pyval) : bool :=
  match val with PList _ => true | _ => false end.

(** [isinstance(val, (Parameter, Variable))] *)
Definition isinstance_Parameter_Variable (val : pyval) : bool :=
  match val with
  | PTensor t =>
      match t_class t with
      | ParameterC | VariableC => true
      | TensorC => false
      end
  | _ => false
  end.

(** [val.data]: the underlying plain tensor. *)
Definition data (val : pyval) : pyval :=
  match val with
  | PTensor t =>
      PTensor (mkTensor TensorC (t_backend t) (t_layout t) (t_dtype t)
                 (t_shape t) (t_data t))
  | _ => val
  end.

(** [isinstance(val, types)] for a tuple of legacy tensor types. *)
Definition isinstance (val : pyval) (types : list tensor_type) : bool :=
  match val with
  | PTensor t => existsb (tensor_type_eqb (type_of t)) types
  | _ => false
  end.

(** ** Casts: [t.half()], [t.bfloat16()], [t.float()] *)

Definition tensor_to (d : dtype) (t : tensor) : tensor :=
  if dtype_eqb (t_dtype t) d then t
  else mkTensor (cast_class (t_class t)) (t_backend t) (t_layout t) d
                (t_shape t) (map (cast_scalar (t_dtype t) d) (t_data t)).

Definition half : tensor -> tensor := tensor_to Float16.
Definition bfloat16 : tensor -> tensor := tensor_to BFloat16.
Definition float : tensor -> tensor := tensor_to Float32.

(** ** The conversions of the module *)

(** [conversion_helper(val, conversion)] *)
Fixpoint conversion_helper (val : pyval) (conversion : pyval -> pyval) : pyval :=
  match val with
  | PList vs | PTuple vs =>
      let rtn := map (fun v => conversion_helper v conversion) vs in
      if isinstance_tuple val then PTuple rtn else PList rtn
  | _ => conversion val
  end.

(** The inner function of [fp32_to_float16]. *)
Definition half_conversion (float16_convertor : tensor -> tensor)
    (val : pyval) : pyval :=
  let val_typecheck :=
    if isinstance_Parameter_Variable val then data val else val in
  if isinstance val_typecheck _FLOAT_TYPES then
    match val with
    | PTensor t => PTensor (float16_convertor t)
    | _ => val
    end
  else val.

Definition fp32_to_float16 (val : pyval) (float16_convertor : tensor -> tensor)
    : pyval :=
  conversion_helper val (half_conversion float16_convertor).

(** The inner function of [float16_to_fp32]. *)
Definition float_conversion (val : pyval) : pyval :=
  let val_typecheck :=
    if isinstance_Parameter_Variable val then data val else val in
  if isinstance val_typecheck (_BF16_TYPES ++ _HALF_TYPES) then
    match val with
    | PTensor t => PTensor (float t)
    | _ => val
    end
  else val.

Definition float16_to_fp32 (val : pyval) : pyval :=
  conversion_helper val float_conversion.

(** ** Exceptions, the runtime and the state the methods act on *)

Inductive exn : Type :=
| Exception (msg : string)
| AssertionError
| AttributeError (name : string)
| TypeError.

Inductive result (A : Type) : Type :=
| Ok (a : A)
| Raise (e : exn).
Arguments Ok {A} a.
Arguments Raise {A} e.

(** A parameter: its tensor and the dynamic attribute [shared]
    ([None] when the attribute was never set). *)
Record parameter : Type := mkParameter {
  p_tensor : tensor;
  p_shared : option bool
}.

(** [param_is_not_shared(param)] *)
Definition param_is_not_shared (param : parameter) : bool :=
  match p_shared param with
  | None => true
  | Some shared => negb shared
  end.

(** The weight initialiser handed to the embedding factory. *)
Variable init_method : Type.

(** [get_args()] *)
Record args_t : Type := mkArgs {
  fp16 : bool;
  bf16 : bool;
  pipeline_model_parallel_size : Z;
  padded_vocab_size : Z;
  hidden_size : Z;
  init_method_std : scalar
}.

(** What the module asks of [mpu] and [torch.distributed].  The stage
    queries take [ignore_virtual]; [all_reduce] gives the elements the
    collective writes back into the caller's tensor. *)
Record runtime : Type := mkRuntime {
  get_args : args_t;
  is_pipeline_first_stage : bool -> bool;
  is_pipeline_last_stage : bool -> bool;
  is_initialized : bool;
  VocabParallelEmbedding : Z -> Z -> init_method -> parameter;
  all_reduce : list scalar -> list scalar
}.

(** The two places an embedding weight lives in:
    [self.language_model.embedding.word_embeddings.weight] and
    [self.word_embeddings.weight]. *)
Inductive weight_ref : Type := NativeWeight | HeadWeight.

Record MegatronModule : Type := mkMegatronModule {
  share_word_embeddings : bool;
  language_model_weight : option parameter;
  word_embeddings : option parameter;
  _word_embeddings_for_head_key : option string
}.

(** [MegatronModule.__init__(share_word_embeddings=True)]; the language
    model is attached by the subclass. *)
Definition MegatronModule_init (share : bool) (lm : option parameter)
    : MegatronModule :=
  mkMegatronModule share lm None None.

(** Calls that leave the module, in the order they are issued. *)
Inductive call : Type :=
| CallVocabParallelEmbedding (vocab hidden : Z) (init : init_method)
| CallAllReduce (tensor_data : list scalar)
| CallModule (inputs : list pyval) (kwargs : list (string * pyval)).

Record state : Type := mkState {
  self : MegatronModule;
  stdout : list string;
  calls : list call
}.

(** Computations that read and update [state] and may raise; what was
    written before a raise stays written. *)
Definition M (A : Type) : Type := state -> result A * state.

Definition ret {A} (a : A) : M A := fun s => (Ok a, s).
Definition raise {A} (e : exn) : M A := fun s => (Raise e, s).
Definition bind {A B} (m : M A) (k : A -> M B) : M B :=
  fun s =>
    match m s with
    | (Ok a, s') => k a s'
    | (Raise e, s') => (Raise e, s')
    end.
Definition lift {A} (r : result A) : M A := fun s => (r, s).
Definition get_self : M MegatronModule := fun s => (Ok (self s), s).
Definition put_self (m : MegatronModule) : M unit :=
  fun s => (Ok tt, mkState m (stdout s) (calls s)).
Definition print (line : string) : M unit :=
  fun s => (Ok tt, mkState (self s) (stdout s ++ [line]) (calls s)).
Definition issue (c : call) : M unit :=
  fun s => (Ok tt, mkState (self s) (stdout s) (calls s ++ [c])).
Definition assert (b : bool) : M unit :=
  if b then ret tt else raise AssertionError.

Notation "x <- m ;; k" := (bind m (fun x => k))
  (at level 61, m at next level, right associativity).
Notation "m ;; k" := (bind m (fun _ => k))
  (at level 61, right associativity).

(** Attribute lookup: [AttributeError] when the attribute is missing. *)
Definition getattr {A} (name : string) (o : option A) : result A :=
  match o with
  | Some a => Ok a
  | None => Raise (AttributeError name)
  end.

Definition deref (m : MegatronModule) (r : weight_ref) : option parameter :=
  match r with
  | NativeWeight => language_model_weight m
  | HeadWeight => word_embeddings m
  end.

(** [MegatronModule.word_embeddings_weight]: the place of the weight it
    returns. *)
Definition word_embeddings_weight (rt : runtime) (m : MegatronModule)
    : result weight_ref :=
  if is_pipeline_first_stage rt true then
    match getattr "language_model" (language_model_weight m) with
    | Ok _ => Ok NativeWeight
    | Raise e => Raise e
    end
  else if is_pipeline_last_stage rt true then
    if negb (share_word_embeddings m) then
      Raise (Exception
        "word_embeddings_weight() called for last stage, but share_word_embeddings is false")
    else
      match getattr "word_embeddings" (word_embeddings m) with
      | Ok _ => Ok HeadWeight
      | Raise e => Raise e
      end
  else
    Raise (Exception
      "word_embeddings_weight() should be called for first and last stage only").

(** [t.fill_(0)] *)
Definition fill_0 (t : tensor) : tensor :=
  mkTensor (t_class t) (t_backend t) (t_layout t) (t_dtype t) (t_shape t)
           (map (fun _ => zero) (t_data t)).

(** Writing new elements into the tensor a weight place holds. *)
Definition set_data (d : list scalar) (p : parameter) : parameter :=
  let t := p_tensor p in
  mkParameter (mkTensor (t_class t) (t_backend t) (t_layout t) (t_dtype t)
                 (t_shape t) d)
              (p_shared p).

Definition update_weight (r : weight_ref) (f : parameter -> parameter)
    (m : MegatronModule) : MegatronModule :=
  match r with
  | NativeWeight =>
      mkMegatronModule (share_word_embeddings m)
        (option_map f (language_model_weight m)) (word_embeddings m)
        (_word_embeddings_for_head_key m)
  | HeadWeight =>
      mkMegatronModule (share_word_embeddings m) (language_model_weight m)
        (option_map f (word_embeddings m)) (_word_embeddings_for_head_key m)
  end.

Definition sync_warning : string :=
  "WARNING! Distributed processes aren't initialized, so word embeddings in the last layer are not initialized. If you are just manipulating a model this is fine, but this needs to be handled manually. If you are training something is definitely wrong.".

(** [MegatronModule.initialize_word_embeddings(init_method_normal)] *)
Definition initialize_word_embeddings (rt : runtime)
    (init_method_normal : scalar -> init_method) : M unit :=
  let args := get_args rt in
  m <- get_self ;;
  if negb (share_word_embeddings m) then
    raise (Exception
      "initialize_word_embeddings() was called but share_word_embeddings is false")
  else if (pipeline_model_parallel_size args =? 1)%Z then
    ret tt
  else
    (if is_pipeline_last_stage rt false then
       assert (negb (is_pipeline_first_stage rt false)) ;;
       let init := init_method_normal (init_method_std args) in
       issue (CallVocabParallelEmbedding (padded_vocab_size args)
                (hidden_size args) init) ;;
       let emb := VocabParallelEmbedding rt (padded_vocab_size args)
                    (hidden_size args) init in
       put_self (mkMegatronModule (share_word_embeddings m)
                   (language_model_weight m)
                   (Some (mkParameter (fill_0 (p_tensor emb)) (Some true)))
                   (Some "word_embeddings_for_head"))
     else ret tt) ;;
    if is_initialized rt then
      if is_pipeline_first_stage rt false || is_pipeline_last_stage rt false then
        m' <- get_self ;;
        r <- lift (word_embeddings_weight rt m') ;;
        match deref m' r with
        | Some p =>
            let d := t_data (p_tensor p) in
            issue (CallAllReduce d) ;;
            put_self (update_weight r (set_data (all_reduce rt d)) m')
        | None => raise (AttributeError "weight")
        end
      else ret tt
    else print sync_warning.

(** ** Float16Module *)

(** The wrapped module: the element type its parameters were cast to and
    what calling it returns. *)
Record nn_module : Type := mkModule {
  m_dtype : dtype;
  m_forward : list pyval -> list (string * pyval) -> result pyval
}.

(** [module.half()] and [module.bfloat16()] *)
Definition module_half (m : nn_module) : nn_module :=
  mkModule Float16 (m_forward m).
Definition module_bfloat16 (m : nn_module) : nn_module :=
  mkModule BFloat16 (m_forward m).

Record Float16Module : Type := mkFloat16Module {
  base : MegatronModule;
  module : nn_module;
  float16_convertor : tensor -> tensor
}.

(** [Float16Module.__init__(module, args)] *)
Definition Float16Module_init (module : nn_module) (args : args_t)
    : result Float16Module :=
  let base := MegatronModule_init true None in
  if fp16 args then
    Ok (mkFloat16Module base (module_half module) (fun val => half val))
  else if bf16 args then
    Ok (mkFloat16Module base (module_bfloat16 module) (fun val => bfloat16 val))
  else
    Raise (Exception "should not be here").

(** Unpacking a sequence into positional arguments. *)
Definition unpack (v : pyval) : result (list pyval) :=
  match v with
  | PTuple vs | PList vs => Ok vs
  | _ => Raise TypeError
  end.

(** [Float16Module.forward]: [inputs] are the positional arguments and
    [kwargs] the keyword arguments of the call. *)
Definition forward (rt : runtime) (this : Float16Module)
    (inputs : list pyval) (kwargs : list (string * pyval)) : M pyval :=
  let inputs :=
    if is_pipeline_first_stage rt false
    then fp32_to_float16 (PTuple inputs) (float16_convertor this)
    else PTuple inputs in
  positional <- lift (unpack inputs) ;;
  issue (CallModule positional kwargs) ;;
  outputs <- lift (m_forward (module this) positional kwargs) ;;
  let outputs :=
    if is_pipeline_last_stage rt false
    then float16_to_fp32 outputs
    else outputs in
  ret outputs.

(** ** Vocabulary of the statements *)

(** The container skeleton of a value. *)
#[local] Unset Elimination Schemes.
Inductive shape : Type :=
| SLeaf
| SList (ss : list shape)
| STuple (ss : list shape).

Fixpoint shape_of (v : pyval) : shape :=
  match v with
  | PList vs => SList (map shape_of vs)
  | PTuple vs => STuple (map shape_of vs)
  | _ => SLeaf
  end.

Definition is_leaf (v : pyval) : bool :=
  negb (isinstance_list v || isinstance_tuple v).

(** [leafwise R v w]: [w] has the containers of [v], of the same kind
    and length at every level, and [R] relates each leaf of [v] to what
    stands in its place in [w]. *)
Inductive leafwise (R : pyval -> pyval -> Prop) : pyval -> pyval -> Prop :=
| leafwise_tensor t w : R (PTensor t) w -> leafwise R (PTensor t) w
| leafwise_atom a w : R (PAtom a) w -> leafwise R (PAtom a) w
| leafwise_list vs ws :
    Forall2 (leafwise R) vs ws -> leafwise R (PList vs) (PList ws)
| leafwise_tuple vs ws :
    Forall2 (leafwise R) vs ws -> leafwise R (PTuple vs) (PTuple ws).
#[local] Set Elimination Schemes.

(** Every leaf satisfies [p]. *)
Fixpoint all_leaves (p : pyval -> bool) (v : pyval) : bool :=
  match v with
  | PList vs | PTuple vs => forallb (all_leaves p) vs
  | _ => p v
  end.

(** A dense tensor of the CPU or CUDA backend. *)
Definition is_dense (t : tensor) : bool :=
  match t_layout t, t_backend t with
  | Strided, (CPU | CUDA) => true
  | _, _ => false
  end.

(** A [torch.FloatTensor] or [torch.cuda.FloatTensor], bare or behind a
    Parameter or Variable: a dense CPU or CUDA tensor of 32-bit float
    elements. *)
Definition is_float_tensor (v : pyval) : bool :=
  match v with
  | PTensor t => is_dense t && dtype_eqb (t_dtype t) Float32
  | _ => false
  end.

(** A dense CPU or CUDA tensor of half or bfloat16 elements, bare or
    behind a Parameter or Variable. *)
Definition is_float16_tensor (v : pyval) : bool :=
  match v with
  | PTensor t =>
      is_dense t
      && (dtype_eqb (t_dtype t) Float16 || dtype_eqb (t_dtype t) BFloat16)
  | _ => false
  end.

(** A full-precision tensor: 32-bit float elements, whatever the class
    of the object, its backend and its layout. *)
Definition is_full_precision (v : pyval) : bool :=
  match v with
  | PTensor t => dtype_eqb (t_dtype t) Float32
  | _ => false
  end.

(** A reduced-precision tensor: half or bfloat16 elements. *)
Definition is_reduced_precision (v : pyval) : bool :=
  match v with
  | PTensor t => dtype_eqb (t_dtype t) Float16 || dtype_eqb (t_dtype t) BFloat16
  | _ => false
  end.

(** The two selections of [Float16Module.__init__]. *)
Inductive selection : Type := SelHalf | SelBFloat16.

Definition selected_dtype (sel : selection) : dtype :=
  match sel with SelHalf => Float16 | SelBFloat16 => BFloat16 end.

Definition convertor_of (sel : selection) : tensor -> tensor :=
  match sel with SelHalf => half | SelBFloat16 => bfloat16 end.

(** [w] is the tensor [v] with its elements cast to [d]: same backend,
    layout and shape, element type [d]. *)
Definition converted_to (d : dtype) (v w : pyval) : Prop :=
  exists t t',
    v = PTensor t /\ w = PTensor t' /\
    t_dtype t' = d /\ t_backend t' = t_backend t /\
    t_layout t' = t_layout t /\ t_shape t' = t_shape t /\
    t_data t' = map (cast_scalar (t_dtype t) d) (t_data t).


(** What the entry conversion is to do with a leaf. *)
Definition entry_leaf (sel : selection) (v w : pyval) : Prop :=
  if is_float_tensor v then converted_to (selected_dtype sel) v w else w = v.

(** What the exit conversion is to do with a leaf. *)
Definition exit_leaf (v w : pyval) : Prop :=
  if is_float16_tensor v then converted_to Float32 v w else w = v.

(** ** Basic facts *)

Lemma dtype_eqb_eq (a b : dtype) : dtype_eqb a b = true <-> a = b.
Proof. destruct a, b; simpl; split; congruence. Qed.

Lemma dtype_eqb_refl (a : dtype) : dtype_eqb a a = true.
Proof. now apply dtype_eqb_eq. Qed.

(** Induction over [pyval] with the hypothesis for every element of a
    container. *)
Fixpoint pyval_rect' (P : pyval -> Type) (Q : list pyval -> Type)
    (Ht : forall t, P (PTensor t)) (Ha : forall a, P (PAtom a))
    (Hl : forall vs, Q vs -> P (PList vs))
    (Hu : forall vs, Q vs -> P (PTuple vs))
    (Hnil : Q []) (Hcons : forall v vs, P v -> Q vs -> Q (v :: vs))
    (v : pyval) {struct v} : P v :=
  let go := pyval_rect' P Q Ht Ha Hl Hu Hnil Hcons in
  let fix all (vs : list pyval) : Q vs :=
    match vs with
    | [] => Hnil
    | x :: xs => Hcons x xs (go x) (all xs)
    end in
  match v with
  | PTensor t => Ht t
  | PAtom a => Ha a
  | PList vs => Hl vs (all vs)
  | PTuple vs => Hu vs (all vs)
  end.

Lemma pyval_ind' (P : pyval -> Prop)
    (Ht : forall t, P (PTensor t)) (Ha : forall a, P (PAtom a))
    (Hl : forall vs, Forall P vs -> P (PList vs))
    (Hu : forall vs, Forall P vs -> P (PTuple vs)) :
  forall v, P v.
Proof.
  apply (pyval_rect' P (Forall P)); auto.
Qed.

Lemma map_const_repeat {A B} (b : B) (l : list A) :
  map (fun _ => b) l = repeat b (length l).
Proof.
  induction l as [| a l IH]; simpl; congruence.
Qed.

Lemma conversion_helper_list (vs : list pyval) (conversion : pyval -> pyval) :
  conversion_helper (PList vs) conversion
  = PList (map (fun v => conversion_helper v conversion) vs).
Proof. reflexivity. Qed.

Lemma conversion_helper_tuple (vs : list pyval) (conversion : pyval -> pyval) :
  conversion_helper (PTuple vs) conversion
  = PTuple (map (fun v => conversion_helper v conversion) vs).
Proof. reflexivity. Qed.

Lemma Forall2_map_of_Forall {A B} (R : A -> B -> Prop) (f : A -> B) (l : list A) :
  Forall (fun a => R a (f a)) l -> Forall2 R l (map f l).
Proof.
  induction 1; simpl; constructor; assumption.
Qed.

(** [conversion_helper] applies [conversion] at the leaves and rebuilds
    each container with its own kind and length. *)
Lemma conversion_helper_leafwise (conversion : pyval -> pyval) (val : pyval) :
  leafwise (fun v w => w = conversion v) val (conversion_helper val conversion).
Proof.
  induction val as [t | a | vs IH | vs IH] using pyval_ind'.
  - now constructor.
  - now constructor.
  - rewrite conversion_helper_list. constructor.
    now apply Forall2_map_of_Forall.
  - rewrite conversion_helper_tuple. constructor.
    now apply Forall2_map_of_Forall.
Qed.

Lemma Forall2_impl_Forall {A B} (P Q : A -> B -> Prop) (l : list A) :
  Forall (fun a => forall b, P a b -> Q a b) l ->
  forall l', Forall2 P l l' -> Forall2 Q l l'.
Proof.
  induction 1 as [| a l Ha _ IH]; intros l' H2; inversion H2; subst;
    constructor; auto.
Qed.

Lemma Forall2_map_eq {A B C} (P : A -> B -> Prop) (f : B -> C) (g : A -> C)
    (l : list A) :
  Forall (fun a => forall b, P a b -> f b = g a) l ->
  forall l', Forall2 P l l' -> map f l' = map g l.
Proof.
  induction 1 as [| a l Ha _ IH]; intros l' H2; inversion H2; subst;
    simpl; f_equal; auto.
Qed.

Lemma leafwise_impl (R R' : pyval -> pyval -> Prop) :
  (forall v w, is_leaf v = true -> R v w -> R' v w) ->
  forall v w, leafwise R v w -> leafwise R' v w.
Proof.
  intros HR.
  induction v as [t | a | vs IH | vs IH] using pyval_ind';
    intros w Hvw; inversion Hvw; subst; constructor;
    solve [ now apply HR | eapply Forall2_impl_Forall; eassumption ].
Qed.

(** When leaves go to leaves the container skeleton is unchanged. *)
Lemma leafwise_shape (R : pyval -> pyval -> Prop) :
  (forall v w, is_leaf v = true -> R v w -> is_leaf w = true) ->
  forall v w, leafwise R v w -> shape_of w = shape_of v.
Proof.
  intros HR.
  assert (Hleaf : forall w, is_leaf w = true -> shape_of w = SLeaf)
    by (intros []; unfold is_leaf; simpl; intros; congruence).
  induction v as [t | a | vs IH | vs IH] using pyval_ind';
    intros w Hvw; inversion Hvw; subst; simpl.
  - apply Hleaf. eapply HR; [| eassumption]. reflexivity.
  - apply Hleaf. eapply HR; [| eassumption]. reflexivity.
  - f_equal. eapply Forall2_map_eq; eassumption.
  - f_equal. eapply Forall2_map_eq; eassumption.
Qed.

(** C9: for every value and every conversion, [conversion_helper]
    rebuilds each list as a list and each tuple as a tuple, with the
    same length at every level, and puts [conversion leaf] in the place
    of each leaf; the empty list and the empty tuple map to themselves;
    and when the conversion sends leaves to leaves, the container
    skeleton (kinds, nesting depth, arity) of the result is that of the
    input. *)
Theorem conversion_helper_preserves_containers :
  forall (val : pyval) (conversion : pyval -> pyval),
    leafwise (fun v w => w = conversion v) val (conversion_helper val conversion)
    /\ conversion_helper (PList []) conversion = PList []
    /\ conversion_helper (PTuple []) conversion = PTuple []
    /\ ((forall v, is_leaf v = true -> is_leaf (conversion v) = true) ->
        shape_of (conversion_helper val conversion) = shape_of val).
Proof.
  intros val conversion. repeat split.
  - apply conversion_helper_leafwise.
  - intros Hleaf.
    apply (leafwise_shape (fun v w => w = conversion v)).
    + intros v w Hv ->. now apply Hleaf.
    + apply conversion_helper_leafwise.
Qed.

(** ** The two boundary conversions *)

Lemma is_leaf_tensor_or_atom (v : pyval) :
  is_leaf v = true -> (exists t, v = PTensor t) \/ (exists a, v = PAtom a).
Proof.
  destruct v; unfold is_leaf; simpl; intros H; try discriminate; eauto.
Qed.

(** The type test of [half_conversion], through [.data] or not, is the
    test for a dense CPU or CUDA tensor of 32-bit float elements. *)
Lemma typecheck_float (v : pyval) :
  isinstance (if isinstance_Parameter_Variable v then data v else v) _FLOAT_TYPES
  = is_float_tensor v.
Proof.
  destruct v as [[c b l d sh da] | a | vs | vs]; try reflexivity.
  destruct c, b, l, d; reflexivity.
Qed.

(** The type test of [float_conversion] is the test for a dense CPU or
    CUDA tensor of half or bfloat16 elements. *)
Lemma typecheck_reduced (v : pyval) :
  isinstance (if isinstance_Parameter_Variable v then data v else v)
             (_BF16_TYPES ++ _HALF_TYPES)
  = is_float16_tensor v.
Proof.
  destruct v as [[c b l d sh da] | a | vs | vs]; try reflexivity.
  destruct c, b, l, d; reflexivity.
Qed.

Lemma tensor_to_cast (d : dtype) (t : tensor) :
  t_dtype t <> d ->
  tensor_to d t
  = mkTensor (cast_class (t_class t)) (t_backend t) (t_layout t) d
             (t_shape t) (map (cast_scalar (t_dtype t) d) (t_data t)).
Proof.
  intros Hd. unfold tensor_to.
  destruct (dtype_eqb (t_dtype t) d) eqn:E; [| reflexivity].
  apply dtype_eqb_eq in E. contradiction.
Qed.

Lemma convertor_of_tensor_to (sel : selection) :
  convertor_of sel = tensor_to (selected_dtype sel).
Proof. destruct sel; reflexivity. Qed.

Lemma is_float_tensor_inv (t : tensor) :
  is_float_tensor (PTensor t) = true ->
  is_dense t = true /\ t_dtype t = Float32.
Proof.
  simpl. intros H. apply andb_true_iff in H as [Hd H].
  now apply dtype_eqb_eq in H.
Qed.

Lemma is_float16_tensor_inv (t : tensor) :
  is_float16_tensor (PTensor t) = true ->
  is_dense t = true /\ (t_dtype t = Float16 \/ t_dtype t = BFloat16).
Proof.
  simpl. intros H. apply andb_true_iff in H as [Hd H].
  apply orb_true_iff in H. split; [assumption |].
  destruct H as [H | H]; apply dtype_eqb_eq in H; auto.
Qed.

Lemma half_conversion_entry_leaf (sel : selection) (v : pyval) :
  entry_leaf sel v (half_conversion (convertor_of sel) v).
Proof.
  unfold entry_leaf, half_conversion. cbv zeta. rewrite typecheck_float.
  destruct (is_float_tensor v) eqn:E; [| reflexivity].
  destruct v as [t | a | vs | vs]; try discriminate.
  apply is_float_tensor_inv in E as [_ E].
  rewrite convertor_of_tensor_to, tensor_to_cast
    by (rewrite E; destruct sel; discriminate).
  exists t. eexists. repeat split.
Qed.

Lemma float_conversion_exit_leaf (v : pyval) :
  exit_leaf v (float_conversion v).
Proof.
  unfold exit_leaf, float_conversion. cbv zeta. rewrite typecheck_reduced.
  destruct (is_float16_tensor v) eqn:E; [| reflexivity].
  destruct v as [t | a | vs | vs]; try discriminate.
  apply is_float16_tensor_inv in E as [_ E]. unfold float.
  rewrite tensor_to_cast.
  - exists t. eexists. repeat split.
  - intros Hd. rewrite Hd in E. destruct E; discriminate.
Qed.

Lemma half_conversion_leaf (conv : tensor -> tensor) (v : pyval) :
  is_leaf v = true -> is_leaf (half_conversion conv v) = true.
Proof.
  intros Hv. unfold half_conversion. cbv zeta.
  destruct (isinstance _ _); [| assumption].
  destruct v; solve [assumption | reflexivity].
Qed.

Lemma float_conversion_leaf (v : pyval) :
  is_leaf v = true -> is_leaf (float_conversion v) = true.
Proof.
  intros Hv. unfold float_conversion. cbv zeta.
  destruct (isinstance _ _); [| assumption].
  destruct v; solve [assumption | reflexivity].
Qed.

(** C2 as amended: at entry, a leaf that is a dense CPU or CUDA tensor
    of 32-bit float elements (a torch.FloatTensor or
    torch.cuda.FloatTensor, bare or behind a Parameter or Variable) is
    replaced by the tensor of the selected reduced element type with its
    elements cast, and every other leaf (integer, boolean, half,
    bfloat16 or 64-bit tensor, 32-bit float tensor that is sparse or on
    another device, non-tensor value) is returned as it is; the
    containers are rebuilt as they were. *)
Theorem fp32_to_float16_converts_exactly_fp32_leaves :
  forall (val : pyval) (sel : selection),
    leafwise (entry_leaf sel) val (fp32_to_float16 val (convertor_of sel)).
Proof.
  intros val sel. unfold fp32_to_float16.
  eapply leafwise_impl; [| apply conversion_helper_leafwise].
  intros v w _ ->. apply half_conversion_entry_leaf.
Qed.

(** C3 as amended: at exit, a leaf that is a dense CPU or CUDA tensor of
    half or bfloat16 elements (bare or behind a Parameter or Variable)
    is replaced by the 32-bit float tensor with its elements cast, and
    every other leaf, a full-precision tensor, a half or bfloat16 tensor
    that is sparse or on another device, or a non-tensor value among
    them, is returned as it is. *)
Theorem float16_to_fp32_converts_exactly_reduced_leaves :
  forall (val : pyval),
    leafwise exit_leaf val (float16_to_fp32 val)
    /\ (forall t, t_dtype t = Float32 -> float16_to_fp32 (PTensor t) = PTensor t)
    /\ (forall a, float16_to_fp32 (PAtom a) = PAtom a).
Proof.
  intros val. repeat split.
  - unfold float16_to_fp32.
    eapply leafwise_impl; [| apply conversion_helper_leafwise].
    intros v w _ ->. apply float_conversion_exit_leaf.
  - intros t Ht. pose proof (float_conversion_exit_leaf (PTensor t)) as H.
    unfold exit_leaf in H. simpl in H. rewrite Ht in H. simpl in H.
    rewrite andb_false_r in H. exact H.
Qed.

(** ** Entry followed by exit *)

Lemma conversion_helper_leaf (f : pyval -> pyval) (v : pyval) :
  is_leaf v = true -> conversion_helper v f = f v.
Proof.
  destruct v; unfold is_leaf; simpl; intros H; try discriminate; reflexivity.
Qed.

(** Two walks, the first sending leaves to leaves, are one walk with the
    composed conversion. *)
Lemma conversion_helper_compose (f g : pyval -> pyval) :
  (forall v, is_leaf v = true -> is_leaf (f v) = true) ->
  forall val,
    conversion_helper (conversion_helper val f) g
    = conversion_helper val (fun v => g (f v)).
Proof.
  intros Hf.
  induction val as [t | a | vs IH | vs IH] using pyval_ind'.
  - simpl. now apply conversion_helper_leaf, Hf.
  - simpl. now apply conversion_helper_leaf, Hf.
  - rewrite !conversion_helper_list, map_map. f_equal.
    apply map_ext_Forall. exact IH.
  - rewrite !conversion_helper_tuple, map_map. f_equal.
    apply map_ext_Forall. exact IH.
Qed.


Lemma leafwise_all_leaves (p : pyval -> bool) (R : pyval -> pyval -> Prop) :
  (forall v w, is_leaf v = true -> R v w -> is_leaf w = true /\ p w = true) ->
  forall v w, leafwise R v w -> all_leaves p w = true.
Proof.
  intros HR.
  assert (Hleaf : forall w, is_leaf w = true -> all_leaves p w = p w)
    by (intros []; unfold is_leaf; simpl; intros; congruence).
  assert (Hall : forall vs, Forall (fun v => forall w, leafwise R v w ->
                   all_leaves p w = true) vs ->
                 forall ws, Forall2 (leafwise R) vs ws ->
                   forallb (all_leaves p) ws = true).
  { induction 1 as [| v vs Hv _ IHvs]; intros ws H2; inversion H2; subst;
      simpl; [reflexivity |].
    rewrite (Hv _ ltac:(eassumption)). now apply IHvs. }
  induction v as [t | a | vs IH | vs IH] using pyval_ind';
    intros w Hvw; inversion Hvw; subst.
  - destruct (HR (PTensor t) w eq_refl ltac:(assumption)) as [Hl Hp].
    now rewrite Hleaf.
  - destruct (HR (PAtom a) w eq_refl ltac:(assumption)) as [Hl Hp].
    now rewrite Hleaf.
  - simpl. now apply Hall with vs.
  - simpl. now apply Hall with vs.
Qed.




(** ** Float16Module *)

(** C10: on every pipeline stage the wrapper is one application of the
    wrapped module to the keyword arguments it was given, unconverted:
    its result is that application's result (converted at exit on the
    last stage only), an exception of the module is the wrapper's, and
    the one call issued carries the same keyword arguments; only the
    positional arguments are converted, and only on the first stage. *)
Theorem forward_passes_kwargs_unchanged :
  forall (rt : runtime) (this : Float16Module) (inputs : list pyval)
         (kwargs : list (string * pyval)) (s : state),
    forward rt this inputs kwargs s
    = (match m_forward (module this)
               (if is_pipeline_first_stage rt false
                then map (fun v => fp32_to_float16 v (float16_convertor this))
                         inputs
                else inputs)
               kwargs
       with
       | Ok outputs =>
           Ok (if is_pipeline_last_stage rt false
               then float16_to_fp32 outputs else outputs)
       | Raise e => Raise e
       end,
       mkState (self s) (stdout s)
         (calls s ++
          [CallModule
             (if is_pipeline_first_stage rt false
              then map (fun v => fp32_to_float16 v (float16_convertor this))
                       inputs
              else inputs)
             kwargs])).
Proof.
  intros rt this inputs kwargs s. unfold forward. cbv zeta.
  destruct (is_pipeline_first_stage rt false);
    unfold fp32_to_float16; try rewrite conversion_helper_tuple;
    unfold bind, lift, issue, ret; simpl;
    destruct (m_forward (module this) _ kwargs); reflexivity.
Qed.

(** C5 as amended: construction fails, with the error "should not be
    here", exactly when neither fp16 nor bf16 is selected; with fp16
    selected (bf16 selected too or not) it succeeds with the half
    convertor, and with bf16 alone it succeeds with the bfloat16
    convertor. *)
Theorem Float16Module_init_selection :
  forall (inner : nn_module) (args : args_t),
    (Float16Module_init inner args = Raise (Exception "should not be here")
     <-> fp16 args = false /\ bf16 args = false)
    /\ (fp16 args = true ->
        Float16Module_init inner args
        = Ok (mkFloat16Module (MegatronModule_init true None)
                (module_half inner) half))
    /\ (fp16 args = false -> bf16 args = true ->
        Float16Module_init inner args
        = Ok (mkFloat16Module (MegatronModule_init true None)
                (module_bfloat16 inner) bfloat16)).
Proof.
  intros inner args. unfold Float16Module_init.
  destruct (fp16 args), (bf16 args); simpl;
    repeat split; intros; try discriminate; try reflexivity;
    match goal with H : _ /\ _ |- _ => destruct H; discriminate end.
Qed.

(** ** The embedding weight *)

(** C4 as amended: a first-stage caller gets the native input-embedding
    weight, also when it is the last stage as well; a caller that is the
    last stage and not the first gets the dedicated weight when
    share_word_embeddings is true and a configuration error when it is
    false; a caller that is neither gets an error. *)
Theorem word_embeddings_weight_by_role :
  forall (rt : runtime) (m : MegatronModule),
    (is_pipeline_first_stage rt true = true ->
     forall p, language_model_weight m = Some p ->
       word_embeddings_weight rt m = Ok NativeWeight
       /\ deref m NativeWeight = Some p)
    /\ (is_pipeline_first_stage rt true = false ->
        is_pipeline_last_stage rt true = true ->
        share_word_embeddings m = true ->
        forall p, word_embeddings m = Some p ->
          word_embeddings_weight rt m = Ok HeadWeight
          /\ deref m HeadWeight = Some p)
    /\ (is_pipeline_first_stage rt true = false ->
        is_pipeline_last_stage rt true = true ->
        share_word_embeddings m = false ->
        word_embeddings_weight rt m
        = Raise (Exception
            "word_embeddings_weight() called for last stage, but share_word_embeddings is false"))
    /\ (is_pipeline_first_stage rt true = false ->
        is_pipeline_last_stage rt true = false ->
        word_embeddings_weight rt m
        = Raise (Exception
            "word_embeddings_weight() should be called for first and last stage only")).
Proof.
  intros rt m. unfold word_embeddings_weight.
  split; [| split; [| split]].
  - intros Hfirst p Hp. rewrite Hfirst, Hp. split; [reflexivity | exact Hp].
  - intros Hfirst Hlast Hshare p Hp. rewrite Hfirst, Hlast, Hshare, Hp.
    split; [reflexivity | exact Hp].
  - intros Hfirst Hlast Hshare. rewrite Hfirst, Hlast, Hshare. reflexivity.
  - intros Hfirst Hlast. rewrite Hfirst, Hlast. reflexivity.
Qed.

(** C8: with share_word_embeddings false, initialize_word_embeddings
    raises its configuration error and the module, the output and the
    calls issued are what they were. *)
Theorem initialize_word_embeddings_requires_sharing :
  forall (rt : runtime) (init_method_normal : scalar -> init_method) (s : state),
    share_word_embeddings (self s) = false ->
    initialize_word_embeddings rt init_method_normal s
    = (Raise (Exception
         "initialize_word_embeddings() was called but share_word_embeddings is false"),
       s).
Proof.
  intros rt init s Hshare.
  unfold initialize_word_embeddings, bind, get_self. cbv zeta.
  rewrite Hshare. reflexivity.
Qed.

(** C6: with sharing requested and a pipeline of one stage,
    initialize_word_embeddings returns at once: the module (no second
    embedding, nothing zero-filled or tagged shared), the output and the
    calls issued (no collective) are what they were. *)
Theorem initialize_word_embeddings_single_stage :
  forall (rt : runtime) (init_method_normal : scalar -> init_method) (s : state),
    share_word_embeddings (self s) = true ->
    pipeline_model_parallel_size (get_args rt) = 1%Z ->
    initialize_word_embeddings rt init_method_normal s = (Ok tt, s).
Proof.
  intros rt init s Hshare Hone.
  unfold initialize_word_embeddings, bind, get_self. cbv zeta.
  rewrite Hshare, Hone. reflexivity.
Qed.

(** C7: with sharing requested, more than one stage, the caller on the
    last stage (and so not on the first) and the distributed runtime not
    initialised, initialize_word_embeddings returns normally; the
    warning is the one line written; the one call issued is the
    embedding factory (no collective); and the new embedding weight is
    the tensor the factory allocated (same class, backend, layout,
    element type, shape and number of elements), tagged shared, with
    zero in every element. *)
Theorem initialize_word_embeddings_last_stage_no_dist :
  forall (rt : runtime) (init_method_normal : scalar -> init_method) (s : state),
    share_word_embeddings (self s) = true ->
    (1 < pipeline_model_parallel_size (get_args rt))%Z ->
    is_pipeline_last_stage rt false = true ->
    is_pipeline_first_stage rt false = false ->
    is_initialized rt = false ->
    exists s' p,
      initialize_word_embeddings rt init_method_normal s = (Ok tt, s')
      /\ stdout s' = stdout s ++ [sync_warning]
      /\ calls s' = calls s ++
           [CallVocabParallelEmbedding (padded_vocab_size (get_args rt))
              (hidden_size (get_args rt))
              (init_method_normal (init_method_std (get_args rt)))]
      /\ word_embeddings (self s') = Some p
      /\ p_shared p = Some true
      /\ Forall (fun x => x = zero) (t_data (p_tensor p))
      /\ t_shape (p_tensor p)
         = t_shape (p_tensor (VocabParallelEmbedding rt
             (padded_vocab_size (get_args rt)) (hidden_size (get_args rt))
             (init_method_normal (init_method_std (get_args rt)))))
      /\ language_model_weight (self s') = language_model_weight (self s)
      /\ share_word_embeddings (self s') = true
      /\ (let allocated :=
            p_tensor (VocabParallelEmbedding rt
              (padded_vocab_size (get_args rt)) (hidden_size (get_args rt))
              (init_method_normal (init_method_std (get_args rt)))) in
          length (t_data (p_tensor p)) = length (t_data allocated)
          /\ t_data (p_tensor p) = repeat zero (length (t_data allocated))
          /\ t_class (p_tensor p) = t_class allocated
          /\ t_backend (p_tensor p) = t_backend allocated
          /\ t_layout (p_tensor p) = t_layout allocated
          /\ t_dtype (p_tensor p) = t_dtype allocated).
Proof.
  intros rt init s Hshare Hmany Hlast Hfirst Hdist.
  unfold initialize_word_embeddings, bind, get_self. cbv zeta.
  rewrite Hshare. simpl negb. cbv iota.
  destruct (Z.eqb_spec (pipeline_model_parallel_size (get_args rt)) 1) as [E | _];
    [lia |].
  rewrite Hlast, Hfirst, Hdist. simpl.
  eexists. eexists. split; [reflexivity |]. simpl.
  repeat split; try assumption.
  - apply Forall_forall. intros x Hx. apply in_map_iff in Hx.
    destruct Hx as (y & <- & _). reflexivity.
  - apply length_map.
  - apply map_const_repeat.
Qed.

(** ** Further properties of the walk and of the two conversions *)

Definition not_float_tensor (v : pyval) : bool := negb (is_float_tensor v).
Definition not_float16_tensor (v : pyval) : bool := negb (is_float16_tensor v).

Lemma conversion_helper_ext (f g : pyval -> pyval) :
  (forall v, is_leaf v = true -> f v = g v) ->
  forall val, conversion_helper val f = conversion_helper val g.
Proof.
  intros Hfg.
  induction val as [t | a | vs IH | vs IH] using pyval_ind'.
  - now apply Hfg.
  - now apply Hfg.
  - rewrite !conversion_helper_list. f_equal. now apply map_ext_Forall.
  - rewrite !conversion_helper_tuple. f_equal. now apply map_ext_Forall.
Qed.

Lemma map_fixed_Forall {A} (f : A -> A) (l : list A) :
  Forall (fun a => f a = a) l -> map f l = l.
Proof.
  induction 1 as [| a l Ha _ IH]; simpl; congruence.
Qed.

(** A conversion that fixes the leaves satisfying [p] fixes the trees
    made of such leaves. *)
Lemma conversion_helper_fixed_on (p : pyval -> bool) (f : pyval -> pyval) :
  (forall v, is_leaf v = true -> p v = true -> f v = v) ->
  forall val, all_leaves p val = true -> conversion_helper val f = val.
Proof.
  intros Hf.
  induction val as [t | a | vs IH | vs IH] using pyval_ind'; intros Hp.
  - now apply Hf.
  - now apply Hf.
  - rewrite conversion_helper_list. f_equal. apply map_fixed_Forall.
    simpl in Hp. rewrite forallb_forall in Hp.
    rewrite Forall_forall in IH |- *. auto.
  - rewrite conversion_helper_tuple. f_equal. apply map_fixed_Forall.
    simpl in Hp. rewrite forallb_forall in Hp.
    rewrite Forall_forall in IH |- *. auto.
Qed.

Lemma half_conversion_not_float (sel : selection) (v : pyval) :
  is_float_tensor (half_conversion (convertor_of sel) v) = false.
Proof.
  pose proof (half_conversion_entry_leaf sel v) as H. unfold entry_leaf in H.
  destruct (is_float_tensor v) eqn:E.
  - destruct H as (t & t' & _ & Hw & Hd & _). rewrite Hw. simpl. rewrite Hd.
    destruct sel; apply andb_false_r.
  - rewrite H. exact E.
Qed.

Lemma float_conversion_not_float16 (v : pyval) :
  is_float16_tensor (float_conversion v) = false.
Proof.
  pose proof (float_conversion_exit_leaf v) as H. unfold exit_leaf in H.
  destruct (is_float16_tensor v) eqn:E.
  - destruct H as (t & t' & _ & Hw & Hd & _). rewrite Hw. simpl. rewrite Hd.
    apply andb_false_r.
  - rewrite H. exact E.
Qed.

Lemma half_conversion_fixes (sel : selection) (v : pyval) :
  is_float_tensor v = false -> half_conversion (convertor_of sel) v = v.
Proof.
  intros E. pose proof (half_conversion_entry_leaf sel v) as H.
  unfold entry_leaf in H. now rewrite E in H.
Qed.

Lemma float_conversion_fixes (v : pyval) :
  is_float16_tensor v = false -> float_conversion v = v.
Proof.
  intros E. pose proof (float_conversion_exit_leaf v) as H.
  unfold exit_leaf in H. now rewrite E in H.
Qed.

(** X1: walking a tree with the identity conversion rebuilds the same
    tree. *)
Theorem conversion_helper_identity :
  forall (val : pyval), conversion_helper val (fun v => v) = val.
Proof.
  induction val as [t | a | vs IH | vs IH] using pyval_ind'.
  - reflexivity.
  - reflexivity.
  - rewrite conversion_helper_list. f_equal. now apply map_fixed_Forall.
  - rewrite conversion_helper_tuple. f_equal. now apply map_fixed_Forall.
Qed.

(** X2: two walks in a row are one walk with the composed conversion,
    provided the first conversion puts no list or tuple in the place of
    a leaf of the tree. *)
Theorem conversion_helper_fusion :
  forall (f g : pyval -> pyval) (val : pyval),
    all_leaves (fun v => is_leaf (f v)) val = true ->
    conversion_helper (conversion_helper val f) g
    = conversion_helper val (fun v => g (f v)).
Proof.
  intros f g.
  induction val as [t | a | vs IH | vs IH] using pyval_ind'; intros Hf.
  - simpl. now apply conversion_helper_leaf.
  - simpl. now apply conversion_helper_leaf.
  - rewrite !conversion_helper_list, map_map. f_equal.
    simpl in Hf. rewrite forallb_forall in Hf.
    apply map_ext_in. intros v Hv.
    rewrite Forall_forall in IH. auto.
  - rewrite !conversion_helper_tuple, map_map. f_equal.
    simpl in Hf. rewrite forallb_forall in Hf.
    apply map_ext_in. intros v Hv.
    rewrite Forall_forall in IH. auto.
Qed.

(** X3: whatever the input tree, the entry conversion with either
    selection returns a tree in which no leaf is a dense CPU or CUDA
    tensor of 32-bit float elements (a torch.FloatTensor or
    torch.cuda.FloatTensor), at any depth. *)
Theorem fp32_to_float16_leaves_no_float_tensor :
  forall (val : pyval) (sel : selection),
    all_leaves not_float_tensor (fp32_to_float16 val (convertor_of sel)) = true.
Proof.
  intros val sel. unfold fp32_to_float16.
  eapply leafwise_all_leaves; [| apply conversion_helper_leafwise].
  intros v w Hv ->. split.
  - now apply half_conversion_leaf.
  - unfold not_float_tensor. now rewrite half_conversion_not_float.
Qed.

(** X4: whatever the output tree, the exit conversion returns a tree in
    which no leaf is a dense CPU or CUDA tensor of half or bfloat16
    elements, at any depth. *)
Theorem float16_to_fp32_leaves_no_float16_tensor :
  forall (val : pyval),
    all_leaves not_float16_tensor (float16_to_fp32 val) = true.
Proof.
  intros val. unfold float16_to_fp32.
  eapply leafwise_all_leaves; [| apply conversion_helper_leafwise].
  intros v w Hv ->. split.
  - now apply float_conversion_leaf.
  - unfold not_float16_tensor. now rewrite float_conversion_not_float16.
Qed.

(** X5: the entry conversion is idempotent: converting an already
    converted tree again changes nothing. *)
Theorem fp32_to_float16_idempotent :
  forall (val : pyval) (sel : selection),
    fp32_to_float16 (fp32_to_float16 val (convertor_of sel)) (convertor_of sel)
    = fp32_to_float16 val (convertor_of sel).
Proof.
  intros val sel. unfold fp32_to_float16.
  rewrite conversion_helper_compose by (apply half_conversion_leaf).
  apply conversion_helper_ext. intros v _.
  apply half_conversion_fixes, half_conversion_not_float.
Qed.

(** X6: the exit conversion is idempotent. *)
Theorem float16_to_fp32_idempotent :
  forall (val : pyval),
    float16_to_fp32 (float16_to_fp32 val) = float16_to_fp32 val.
Proof.
  intros val. unfold float16_to_fp32.
  rewrite conversion_helper_compose by (apply float_conversion_leaf).
  apply conversion_helper_ext. intros v _.
  apply float_conversion_fixes, float_conversion_not_float16.
Qed.

(** X7: the entry conversion returns its input unchanged exactly when
    no leaf of the input is a dense CPU or CUDA tensor of 32-bit float
    elements. *)
Theorem fp32_to_float16_fixed_iff :
  forall (val : pyval) (sel : selection),
    fp32_to_float16 val (convertor_of sel) = val
    <-> all_leaves not_float_tensor val = true.
Proof.
  intros val sel. unfold fp32_to_float16. split.
  - intros H. rewrite <- H.
    eapply leafwise_all_leaves; [| apply conversion_helper_leafwise].
    intros v w Hv ->. split.
    + now apply half_conversion_leaf.
    + unfold not_float_tensor. now rewrite half_conversion_not_float.
  - apply conversion_helper_fixed_on. intros v _ Hv.
    apply half_conversion_fixes. unfold not_float_tensor in Hv.
    now apply negb_true_iff.
Qed.

(** X8: the exit conversion returns its input unchanged exactly when no
    leaf of the input is a dense CPU or CUDA tensor of half or bfloat16
    elements. *)
Theorem float16_to_fp32_fixed_iff :
  forall (val : pyval),
    float16_to_fp32 val = val <-> all_leaves not_float16_tensor val = true.
Proof.
  intros val. unfold float16_to_fp32. split.
  - intros H. rewrite <- H.
    eapply leafwise_all_leaves; [| apply conversion_helper_leafwise].
    intros v w Hv ->. split.
    + now apply float_conversion_leaf.
    + unfold not_float16_tensor. now rewrite float_conversion_not_float16.
  - apply conversion_helper_fixed_on. intros v _ Hv.
    apply float_conversion_fixes. unfold not_float16_tensor in Hv.
    now apply negb_true_iff.
Qed.

(** ** Further properties of Float16Module *)


Lemma Float16Module_init_convertor (inner : nn_module) (args : args_t)
    (this : Float16Module) :
  Float16Module_init inner args = Ok this ->
  exists sel,
    float16_convertor this = convertor_of sel
    /\ m_dtype (module this) = selected_dtype sel
    /\ m_forward (module this) = m_forward inner
    /\ base this = MegatronModule_init true None.
Proof.
  unfold Float16Module_init. cbv zeta.
  destruct (fp16 args); [| destruct (bf16 args)]; intros H;
    try discriminate; injection H as <-.
  - exists SelHalf. repeat split.
  - exists SelBFloat16. repeat split.
Qed.



(** X12: a wrapper that was constructed shares word embeddings, calls
    the module it was given, and its convertor casts full-precision
    tensors to the element type the wrapped module's parameters were
    cast to, which is half or bfloat16. *)
Theorem Float16Module_init_consistent :
  forall (inner : nn_module) (args : args_t) (this : Float16Module),
    Float16Module_init inner args = Ok this ->
    share_word_embeddings (base this) = true
    /\ m_forward (module this) = m_forward inner
    /\ (m_dtype (module this) = Float16 \/ m_dtype (module this) = BFloat16)
    /\ (forall t, t_dtype t = Float32 ->
          t_dtype (float16_convertor this t) = m_dtype (module this)).
Proof.
  intros inner args this Hinit.
  destruct (Float16Module_init_convertor _ _ _ Hinit) as (sel & Hc & Hd & Hf & Hb).
  rewrite Hb, Hf, Hd, Hc. repeat split.
  - destruct sel; [left | right]; reflexivity.
  - intros t Ht. rewrite convertor_of_tensor_to, tensor_to_cast
      by (rewrite Ht; destruct sel; discriminate).
    reflexivity.
Qed.

(** ** Further properties of the shared embeddings *)

(** The module once the last stage has allocated, zero-filled and tagged
    its copy of the embedding. *)
Definition allocated (rt : runtime) (init_method_normal : scalar -> init_method)
    (m : MegatronModule) : MegatronModule :=
  let args := get_args rt in
  let emb := VocabParallelEmbedding rt (padded_vocab_size args) (hidden_size args)
               (init_method_normal (init_method_std args)) in
  mkMegatronModule (share_word_embeddings m) (language_model_weight m)
    (Some (mkParameter (fill_0 (p_tensor emb)) (Some true)))
    (Some "word_embeddings_for_head").

(** The call of the embedding factory. *)
Definition factory_call (rt : runtime) (init_method_normal : scalar -> init_method)
    : call :=
  let args := get_args rt in
  CallVocabParallelEmbedding (padded_vocab_size args) (hidden_size args)
    (init_method_normal (init_method_std args)).

(** The elements the last stage hands to the collective. *)
Definition head_zeros (rt : runtime) (init_method_normal : scalar -> init_method)
    : list scalar :=
  let args := get_args rt in
  map (fun _ => zero)
    (t_data (p_tensor (VocabParallelEmbedding rt (padded_vocab_size args)
                         (hidden_size args)
                         (init_method_normal (init_method_std args))))).

(** The sum over two workers that [all_reduce] computes, for an addition
    [add] of elements. *)
Definition elementwise_sum (add : scalar -> scalar -> scalar)
    (mine theirs : list scalar) : list scalar :=
  map (fun xy => add (fst xy) (snd xy)) (combine mine theirs).

Ltac run_initialize :=
  unfold initialize_word_embeddings, bind, get_self, put_self, issue, print,
    lift, assert, ret, raise; cbv zeta.

Lemma initialize_run_no_dist (rt : runtime)
    (init_method_normal : scalar -> init_method) (s : state) :
  share_word_embeddings (self s) = true ->
  pipeline_model_parallel_size (get_args rt) <> 1%Z ->
  is_initialized rt = false ->
  (is_pipeline_last_stage rt false = true ->
   is_pipeline_first_stage rt false = false) ->
  initialize_word_embeddings rt init_method_normal s
  = (Ok tt,
     if is_pipeline_last_stage rt false
     then mkState (allocated rt init_method_normal (self s))
            (stdout s ++ [sync_warning])
            (calls s ++ [factory_call rt init_method_normal])
     else mkState (self s) (stdout s ++ [sync_warning]) (calls s)).
Proof.
  intros Hshare Hmany Hdist Hroles. run_initialize.
  apply Z.eqb_neq in Hmany. rewrite Hshare, Hmany, Hdist. simpl.
  destruct (is_pipeline_last_stage rt false).
  - rewrite (Hroles eq_refl). unfold allocated, factory_call. simpl.
    rewrite Hshare. reflexivity.
  - reflexivity.
Qed.

Lemma initialize_run_first_dist (rt : runtime)
    (init_method_normal : scalar -> init_method) (s : state) (w : parameter) :
  share_word_embeddings (self s) = true ->
  pipeline_model_parallel_size (get_args rt) <> 1%Z ->
  is_pipeline_last_stage rt false = false ->
  is_pipeline_first_stage rt false = true ->
  is_initialized rt = true ->
  is_pipeline_first_stage rt true = true ->
  language_model_weight (self s) = Some w ->
  initialize_word_embeddings rt init_method_normal s
  = (Ok tt,
     mkState
       (update_weight NativeWeight
          (set_data (all_reduce rt (t_data (p_tensor w)))) (self s))
       (stdout s)
       (calls s ++ [CallAllReduce (t_data (p_tensor w))])).
Proof.
  intros Hshare Hmany Hlast Hfirst Hdist Hfirst' Hw. run_initialize.
  apply Z.eqb_neq in Hmany. rewrite Hshare, Hmany, Hlast, Hfirst, Hdist. simpl.
  unfold word_embeddings_weight. rewrite Hfirst', Hw. simpl. rewrite Hw.
  reflexivity.
Qed.

Lemma initialize_run_last_dist (rt : runtime)
    (init_method_normal : scalar -> init_method) (s : state) :
  share_word_embeddings (self s) = true ->
  pipeline_model_parallel_size (get_args rt) <> 1%Z ->
  is_pipeline_last_stage rt false = true ->
  is_pipeline_first_stage rt false = false ->
  is_initialized rt = true ->
  is_pipeline_first_stage rt true = false ->
  is_pipeline_last_stage rt true = true ->
  initialize_word_embeddings rt init_method_normal s
  = (Ok tt,
     mkState
       (update_weight HeadWeight
          (set_data (all_reduce rt (head_zeros rt init_method_normal)))
          (allocated rt init_method_normal (self s)))
       (stdout s)
       (calls s ++ [factory_call rt init_method_normal]
                ++ [CallAllReduce (head_zeros rt init_method_normal)])).
Proof.
  intros Hshare Hmany Hlast Hfirst Hdist Hfirst' Hlast'. run_initialize.
  apply Z.eqb_neq in Hmany. rewrite Hshare, Hmany, Hlast, Hfirst, Hdist. simpl.
  unfold word_embeddings_weight. rewrite Hfirst', Hlast'. simpl.
  unfold allocated, factory_call, head_zeros. simpl.
  rewrite ?Hshare. simpl. rewrite <- app_assoc. reflexivity.
Qed.

Lemma elementwise_sum_zeros_r (add : scalar -> scalar -> scalar) :
  (forall x, add x zero = x) ->
  forall (d : list scalar) (A : Type) (l : list A),
    length l = length d ->
    elementwise_sum add d (map (fun _ => zero) l) = d.
Proof.
  intros Hadd. unfold elementwise_sum.
  induction d as [| x d IH]; intros A [| y l] Hlen; simpl in *;
    try discriminate; try reflexivity.
  rewrite Hadd. f_equal. apply IH. congruence.
Qed.

Lemma elementwise_sum_zeros_l (add : scalar -> scalar -> scalar) :
  (forall x, add zero x = x) ->
  forall (d : list scalar) (A : Type) (l : list A),
    length l = length d ->
    elementwise_sum add (map (fun _ => zero) l) d = d.
Proof.
  intros Hadd. unfold elementwise_sum.
  induction d as [| x d IH]; intros A [| y l] Hlen; simpl in *;
    try discriminate; try reflexivity.
  rewrite Hadd. f_equal. apply IH. congruence.
Qed.

(** X13: with sharing requested and more than one stage, a caller that
    answers both "last stage" and "first stage" fails the assertion, and
    nothing was allocated, written or sent before it. *)
Theorem initialize_word_embeddings_asserts_disjoint_roles :
  forall (rt : runtime) (init_method_normal : scalar -> init_method) (s : state),
    share_word_embeddings (self s) = true ->
    pipeline_model_parallel_size (get_args rt) <> 1%Z ->
    is_pipeline_last_stage rt false = true ->
    is_pipeline_first_stage rt false = true ->
    initialize_word_embeddings rt init_method_normal s = (Raise AssertionError, s).
Proof.
  intros rt init s Hshare Hmany Hlast Hfirst. run_initialize.
  apply Z.eqb_neq in Hmany. rewrite Hshare, Hmany, Hlast, Hfirst. reflexivity.
Qed.

(** X14: with sharing requested, more than one stage and the distributed
    runtime not initialised, every stage (first, middle or last) returns
    normally and writes the warning once; no collective is issued, the
    only call is the factory's on the last stage, the native weight is
    untouched, and off the last stage the module is unchanged. *)
Theorem initialize_word_embeddings_without_distributed :
  forall (rt : runtime) (init_method_normal : scalar -> init_method) (s : state),
    share_word_embeddings (self s) = true ->
    pipeline_model_parallel_size (get_args rt) <> 1%Z ->
    is_initialized rt = false ->
    (is_pipeline_last_stage rt false = true ->
     is_pipeline_first_stage rt false = false) ->
    let r := initialize_word_embeddings rt init_method_normal s in
    fst r = Ok tt
    /\ stdout (snd r) = stdout s ++ [sync_warning]
    /\ calls (snd r)
       = calls s ++ (if is_pipeline_last_stage rt false
                     then [factory_call rt init_method_normal] else [])
    /\ language_model_weight (self (snd r)) = language_model_weight (self s)
    /\ (is_pipeline_last_stage rt false = false -> self (snd r) = self s).
Proof.
  intros rt init s Hshare Hmany Hdist Hroles r. unfold r.
  rewrite initialize_run_no_dist by assumption.
  destruct (is_pipeline_last_stage rt false); simpl; repeat split;
    try discriminate; now rewrite app_nil_r.
Qed.

(** X15: with the distributed runtime up, a stage that is neither first
    nor last does nothing: no allocation, no collective, no output. *)
Theorem initialize_word_embeddings_middle_stage :
  forall (rt : runtime) (init_method_normal : scalar -> init_method) (s : state),
    share_word_embeddings (self s) = true ->
    pipeline_model_parallel_size (get_args rt) <> 1%Z ->
    is_pipeline_last_stage rt false = false ->
    is_pipeline_first_stage rt false = false ->
    is_initialized rt = true ->
    initialize_word_embeddings rt init_method_normal s = (Ok tt, s).
Proof.
  intros rt init s Hshare Hmany Hlast Hfirst Hdist. run_initialize.
  apply Z.eqb_neq in Hmany. rewrite Hshare, Hmany, Hlast, Hfirst, Hdist.
  reflexivity.
Qed.

(** X16: with the distributed runtime up, the first stage allocates
    nothing and issues one collective, on the elements of its native
    embedding weight; the result is written back into that weight, whose
    class, type, shape and tag stay as they were. *)
Theorem initialize_word_embeddings_first_stage_reduces_native :
  forall (rt : runtime) (init_method_normal : scalar -> init_method) (s : state)
         (w : parameter),
    share_word_embeddings (self s) = true ->
    pipeline_model_parallel_size (get_args rt) <> 1%Z ->
    is_pipeline_last_stage rt false = false ->
    is_pipeline_first_stage rt false = true ->
    is_initialized rt = true ->
    is_pipeline_first_stage rt true = true ->
    language_model_weight (self s) = Some w ->
    let r := initialize_word_embeddings rt init_method_normal s in
    fst r = Ok tt
    /\ calls (snd r) = calls s ++ [CallAllReduce (t_data (p_tensor w))]
    /\ stdout (snd r) = stdout s
    /\ language_model_weight (self (snd r))
       = Some (set_data (all_reduce rt (t_data (p_tensor w))) w)
    /\ word_embeddings (self (snd r)) = word_embeddings (self s).
Proof.
  intros rt init s w Hshare Hmany Hlast Hfirst Hdist Hfirst' Hw r. unfold r.
  rewrite (initialize_run_first_dist rt init s w) by assumption.
  simpl. rewrite Hw. repeat split.
Qed.

(** X17: with the distributed runtime up, the last stage hands the
    collective nothing but zeros, as many as the factory allocated (its
    freshly zero-filled copy), keeps
    the result as the elements of that copy, tagged shared, writes no
    warning and leaves the native weight alone. *)
Theorem initialize_word_embeddings_last_stage_reduces_zeros :
  forall (rt : runtime) (init_method_normal : scalar -> init_method) (s : state),
    share_word_embeddings (self s) = true ->
    pipeline_model_parallel_size (get_args rt) <> 1%Z ->
    is_pipeline_last_stage rt false = true ->
    is_pipeline_first_stage rt false = false ->
    is_initialized rt = true ->
    is_pipeline_first_stage rt true = false ->
    is_pipeline_last_stage rt true = true ->
    let r := initialize_word_embeddings rt init_method_normal s in
    exists zeros p,
      fst r = Ok tt
      /\ Forall (fun x => x = zero) zeros
      /\ length zeros
         = length (t_data (p_tensor (VocabParallelEmbedding rt
                     (padded_vocab_size (get_args rt)) (hidden_size (get_args rt))
                     (init_method_normal (init_method_std (get_args rt))))))
      /\ calls (snd r)
         = calls s ++ [factory_call rt init_method_normal; CallAllReduce zeros]
      /\ stdout (snd r) = stdout s
      /\ word_embeddings (self (snd r)) = Some p
      /\ t_data (p_tensor p) = all_reduce rt zeros
      /\ p_shared p = Some true
      /\ language_model_weight (self (snd r)) = language_model_weight (self s).
Proof.
  intros rt init s Hshare Hmany Hlast Hfirst Hdist Hfirst' Hlast' r. unfold r.
  rewrite initialize_run_last_dist by assumption.
  exists (head_zeros rt init). eexists. simpl.
  split; [reflexivity |]. split; [| split; [| repeat split]].
  - apply Forall_forall. intros x Hx. apply in_map_iff in Hx.
    destruct Hx as (y & <- & _). reflexivity.
  - unfold head_zeros. cbv zeta. apply length_map.
Qed.

(** X18: two workers, the first and the last stage of a pipeline of
    more than one stage, with the distributed runtime up, the collective
    being the elementwise sum of the two workers' tensors and zero
    neutral for the addition: when the factory gives the last stage as
    many elements as the native weight has, both calls return normally
    and both copies of the embedding end with the elements the first
    stage started with. *)
Theorem initialize_word_embeddings_synchronises_two_stages :
  forall (add : scalar -> scalar -> scalar)
         (rt_first rt_last : runtime)
         (init_method_normal : scalar -> init_method)
         (s_first s_last : state) (w : parameter),
    (forall x, add x zero = x) ->
    (forall x, add zero x = x) ->
    share_word_embeddings (self s_first) = true ->
    pipeline_model_parallel_size (get_args rt_first) <> 1%Z ->
    is_pipeline_last_stage rt_first false = false ->
    is_pipeline_first_stage rt_first false = true ->
    is_initialized rt_first = true ->
    is_pipeline_first_stage rt_first true = true ->
    language_model_weight (self s_first) = Some w ->
    share_word_embeddings (self s_last) = true ->
    pipeline_model_parallel_size (get_args rt_last) <> 1%Z ->
    is_pipeline_last_stage rt_last false = true ->
    is_pipeline_first_stage rt_last false = false ->
    is_initialized rt_last = true ->
    is_pipeline_first_stage rt_last true = false ->
    is_pipeline_last_stage rt_last true = true ->
    length (head_zeros rt_last init_method_normal)
    = length (t_data (p_tensor w)) ->
    (forall d, all_reduce rt_first d
               = elementwise_sum add d (head_zeros rt_last init_method_normal)) ->
    (forall d, all_reduce rt_last d
               = elementwise_sum add d (t_data (p_tensor w))) ->
    let r_first := initialize_word_embeddings rt_first init_method_normal s_first in
    let r_last := initialize_word_embeddings rt_last init_method_normal s_last in
    exists p_first p_last,
      fst r_first = Ok tt /\ fst r_last = Ok tt
      /\ language_model_weight (self (snd r_first)) = Some p_first
      /\ word_embeddings (self (snd r_last)) = Some p_last
      /\ t_data (p_tensor p_first) = t_data (p_tensor w)
      /\ t_data (p_tensor p_last) = t_data (p_tensor w).
Proof.
  intros add rtF rtL init sF sL w Hr Hl
    HshareF HmanyF HlastF HfirstF HdistF HfirstF' Hw
    HshareL HmanyL HlastL HfirstL HdistL HfirstL' HlastL'
    Hlen HsumF HsumL rF rL.
  unfold rF, rL.
  rewrite (initialize_run_first_dist rtF init sF w) by assumption.
  rewrite (initialize_run_last_dist rtL init sL) by assumption.
  simpl. rewrite Hw. simpl. do 2 eexists.
  split; [reflexivity |]. split; [reflexivity |].
  split; [reflexivity |]. split; [reflexivity |]. simpl. split.
  - rewrite HsumF. unfold head_zeros in *. cbv zeta in *.
    apply elementwise_sum_zeros_r; [assumption |].
    now rewrite length_map in Hlen.
  - rewrite HsumL. unfold head_zeros in *. cbv zeta in *.
    apply elementwise_sum_zeros_l; [assumption |].
    now rewrite length_map in Hlen.
Qed.

(** What of a weight the collective cannot change: its tag, class,
    backend, layout, element type and shape. *)
Definition weight_frame (p : parameter)
    : option bool * pyclass * backend * layout * dtype * list nat :=
  (p_shared p, t_class (p_tensor p), t_backend (p_tensor p),
   t_layout (p_tensor p), t_dtype (p_tensor p), t_shape (p_tensor p)).

Ltac split_runtime rt s :=
  run_initialize;
  unfold word_embeddings_weight, getattr, deref, update_weight;
  destruct s as [[sh lm we key] out cs]; simpl;
  destruct sh; simpl;
  [ destruct (pipeline_model_parallel_size (get_args rt) =? 1)%Z; simpl;
    [ | destruct (is_pipeline_last_stage rt false),
                 (is_pipeline_first_stage rt false),
                 (is_initialized rt),
                 (is_pipeline_first_stage rt true),
                 (is_pipeline_last_stage rt true),
                 lm as [p |], we as [q |]; simpl ]
  | ].

(** X19: on every path, normal or raising, initialize_word_embeddings
    keeps share_word_embeddings; keeps the tag, class, backend, layout,
    element type and shape of the native weight (it never tags it shared); and
    only appends to the output and to the calls issued. *)
Theorem initialize_word_embeddings_frame :
  forall (rt : runtime) (init_method_normal : scalar -> init_method) (s : state),
    let s' := snd (initialize_word_embeddings rt init_method_normal s) in
    share_word_embeddings (self s') = share_word_embeddings (self s)
    /\ option_map weight_frame (language_model_weight (self s'))
       = option_map weight_frame (language_model_weight (self s))
    /\ (exists lines, stdout s' = stdout s ++ lines)
    /\ (exists issued, calls s' = calls s ++ issued).
Proof.
  intros rt init s.
  split_runtime rt s;
    (split; [reflexivity |]); (split; [reflexivity |]);
    split;
    first [ now (exists []; rewrite app_nil_r)
          | eexists; rewrite <- ?app_assoc; reflexivity ].
Qed.

(** X20: while the distributed runtime is not initialised, no collective
    is ever issued, whatever the stage, the sharing flag or the module:
    a collective found among the calls afterwards was already there. *)
Theorem initialize_word_embeddings_no_collective_without_distributed :
  forall (rt : runtime) (init_method_normal : scalar -> init_method) (s : state)
         (d : list scalar),
    is_initialized rt = false ->
    In (CallAllReduce d)
       (calls (snd (initialize_word_embeddings rt init_method_normal s))) ->
    In (CallAllReduce d) (calls s).
Proof.
  intros rt init s d Hdist. revert Hdist.
  split_runtime rt s; intros Hdist Hin; try discriminate Hdist;
    try exact Hin;
    apply in_app_or in Hin; destruct Hin as [Hin | [Hin | []]];
    solve [ exact Hin | discriminate Hin ].
Qed.

(** X21: on the last stage (and not the first) of a pipeline of more
    than one stage, a module that has no second embedding yet makes the
    accessor raise AttributeError; once initialize_word_embeddings has
    returned normally, the accessor returns the head weight, which
    exists and is tagged shared. *)
Theorem word_embeddings_weight_after_initialize :
  forall (rt : runtime) (init_method_normal : scalar -> init_method) (s : state),
    word_embeddings (self s) = None ->
    pipeline_model_parallel_size (get_args rt) <> 1%Z ->
    is_pipeline_last_stage rt false = true ->
    is_pipeline_first_stage rt true = false ->
    is_pipeline_last_stage rt true = true ->
    fst (initialize_word_embeddings rt init_method_normal s) = Ok tt ->
    let m' := self (snd (initialize_word_embeddings rt init_method_normal s)) in
    word_embeddings_weight rt (self s) = Raise (AttributeError "word_embeddings")
    /\ word_embeddings_weight rt m' = Ok HeadWeight
    /\ exists p, deref m' HeadWeight = Some p /\ param_is_not_shared p = false.
Proof.
  intros rt init s Hnone Hmany Hlast Hfirst' Hlast'.
  apply Z.eqb_neq in Hmany. revert Hnone Hmany Hlast Hfirst' Hlast'.
  split_runtime rt s; intros Hnone Hmany Hlast Hfirst' Hlast' Hok;
    try discriminate;
    (split; [reflexivity |]); (split; [reflexivity |]);
    eexists; split; reflexivity.
Qed.

End Torch.

Arguments Ok {A} a.
Arguments Raise {A} e.
Arguments mkTensor {scalar}.
Arguments PTensor {scalar} t.
Arguments PAtom {scalar} a.
Arguments PList {scalar} vs.
Arguments PTuple {scalar} vs.
Arguments mkParameter {scalar}.
Arguments mkArgs {scalar}.
Arguments mkRuntime {scalar init_method}.
Arguments mkMegatronModule {scalar}.
Arguments mkState {scalar init_method}.
Arguments mkModule {scalar}.
Arguments mkFloat16Module {scalar}.
Arguments CallVocabParallelEmbedding {scalar init_method}.
Arguments CallAllReduce {scalar init_method}.
Arguments CallModule {scalar init_method}.

(** ** Concrete runs

    A stand-in for the framework on integer elements: a half keeps the
    multiples of 8 and a bfloat16 the multiples of 64; a cast returns a
    plain tensor. *)
Module Concrete.

Definition cast (from to : dtype) (x : Z) : Z :=
  match to with
  | Float16 => (8 * (x / 8))%Z
  | BFloat16 => (64 * (x / 64))%Z
  | _ => x
  end.

Definition plain (c : pyclass) : pyclass := TensorC.

Definition fp32 (c : pyclass) (xs : list Z) : pyval Z :=
  PTensor (mkTensor c CPU Strided Float32 [length xs] xs).

Definition int64 (xs : list Z) : pyval Z :=
  PTensor (mkTensor TensorC CPU Strided Int64 [length xs] xs).

Definition tensor_of (d : dtype) (xs : list Z) : pyval Z :=
  PTensor (mkTensor TensorC CPU Strided d [length xs] xs).

(** A sparse CUDA tensor and a dense tensor on another device: neither
    is of a legacy type the module names. *)
Definition sparse (d : dtype) (xs : list Z) : pyval Z :=
  PTensor (mkTensor TensorC CUDA Sparse d [length xs] xs).

Definition elsewhere (d : dtype) (xs : list Z) : pyval Z :=
  PTensor (mkTensor TensorC OtherDevice Strided d [length xs] xs).

(** The tree [[3.14, [2.71, 1.0]]] in hundredths, the inner container a
    tuple. *)
Definition tree : pyval Z :=
  PList [fp32 TensorC [314%Z]; PTuple [fp32 ParameterC [271%Z]; fp32 TensorC [100%Z]]].

Definition mixed : pyval Z :=
  PTuple [fp32 VariableC [314%Z]; int64 [7%Z]; tensor_of Float16 [16%Z];
          PAtom PyNone; PList []].

(** The embedding factory: a [vocab * hidden] parameter with every
    element set by the initialiser. *)
Definition factory (vocab hidden : Z) (init : Z) : parameter Z :=
  mkParameter
    (mkTensor ParameterC CPU Strided Float32 [Z.to_nat vocab; Z.to_nat hidden]
       (repeat init (Z.to_nat (vocab * hidden))))
    None.

Definition args_of (fp16 bf16 : bool) (stages : Z) : args_t Z :=
  mkArgs fp16 bf16 stages 100%Z 8%Z 2%Z.

(** A worker: its answers to the two stage queries and whether the
    distributed runtime is up. *)
Definition worker (first last dist : bool) (stages : Z) : runtime Z Z :=
  mkRuntime (args_of true false stages) (fun _ => first) (fun _ => last) dist
            factory (fun d => d).

Definition native : parameter Z :=
  mkParameter (mkTensor ParameterC CPU Strided Float32 [2; 1]%nat [5%Z; 9%Z]) None.

Definition model (share : bool) : MegatronModule Z :=
  MegatronModule_init Z share (Some native).

Definition start (share : bool) : state Z Z :=
  mkState (model share) [] [].

Definition identity : nn_module Z :=
  mkModule Float32 (fun inputs _ => Ok (PTuple inputs)).

Example tree_entry :
  fp32_to_float16 Z tree (half Z cast plain)
  = PList [tensor_of Float16 [312%Z];
           PTuple [tensor_of Float16 [264%Z]; tensor_of Float16 [96%Z]]].
Proof. reflexivity. Qed.

Example tree_round_trip :
  float16_to_fp32 Z cast plain (fp32_to_float16 Z tree (half Z cast plain))
  = PList [fp32 TensorC [312%Z];
           PTuple [fp32 TensorC [264%Z]; fp32 TensorC [96%Z]]].
Proof. reflexivity. Qed.

Example mixed_entry :
  fp32_to_float16 Z mixed (bfloat16 Z cast plain)
  = PTuple [tensor_of BFloat16 [256%Z]; int64 [7%Z]; tensor_of Float16 [16%Z];
            PAtom PyNone; PList []].
Proof. reflexivity. Qed.

Example mixed_exit :
  float16_to_fp32 Z cast plain mixed
  = PTuple [fp32 VariableC [314%Z]; int64 [7%Z]; fp32 TensorC [16%Z];
            PAtom PyNone; PList []].
Proof. reflexivity. Qed.

(** C2, the claim as written fails: a sparse 32-bit float tensor, and
    one on another device, are full-precision float tensors, and the
    entry conversion returns them as they are, unconverted. *)
Lemma fp32_to_float16_keeps_sparse_fp32 :
  is_full_precision Z (sparse Float32 [314%Z]) = true
  /\ fp32_to_float16 Z (sparse Float32 [314%Z]) (half Z cast plain)
     = sparse Float32 [314%Z]
  /\ is_full_precision Z (elsewhere Float32 [314%Z]) = true
  /\ fp32_to_float16 Z (PList [elsewhere Float32 [314%Z]]) (bfloat16 Z cast plain)
     = PList [elsewhere Float32 [314%Z]].
Proof. repeat split. Qed.

(** C3, the claim as written fails: a sparse half tensor, and a bfloat16
    tensor on another device, are reduced-precision tensors, and the
    exit conversion returns them as they are, still reduced. *)
Lemma float16_to_fp32_keeps_sparse_half :
  is_reduced_precision Z (sparse Float16 [16%Z]) = true
  /\ float16_to_fp32 Z cast plain (sparse Float16 [16%Z]) = sparse Float16 [16%Z]
  /\ is_reduced_precision Z (elsewhere BFloat16 [64%Z]) = true
  /\ float16_to_fp32 Z cast plain (PTuple [elsewhere BFloat16 [64%Z]])
     = PTuple [elsewhere BFloat16 [64%Z]].
Proof. repeat split. Qed.

(** A full-precision leaf at exit, by the theorem. *)
Lemma float16_to_fp32_keeps_fp32_leaf :
  float16_to_fp32 Z cast plain (fp32 ParameterC [314%Z]) = fp32 ParameterC [314%Z].
Proof.
  exact (proj1 (proj2 (float16_to_fp32_converts_exactly_reduced_leaves
                         Z cast plain mixed))
           (mkTensor ParameterC CPU Strided Float32 [1%nat] [314%Z]) eq_refl).
Defined.

(** The skeleton of [tree] under the entry conversion, by the theorem. *)
Lemma conversion_helper_keeps_tree_shape :
  shape_of Z (conversion_helper Z tree (half_conversion Z (half Z cast plain)))
  = SList [SLeaf; STuple [SLeaf; SLeaf]].
Proof.
  exact (proj2 (proj2 (proj2 (conversion_helper_preserves_containers
                                Z tree (half_conversion Z (half Z cast plain)))))
           (half_conversion_leaf Z (half Z cast plain))).
Defined.

(** The wrapper on a middle stage hands positional and keyword
    arguments on as they are. *)
Example forward_middle_stage :
  forall this,
    Float16Module_init Z cast plain identity (args_of true false 4%Z) = Ok this ->
    forward Z cast plain Z (worker false false true 4%Z) this
      [fp32 TensorC [314%Z]] [("mask", fp32 TensorC [271%Z])] (start true)
    = (Ok (PTuple [fp32 TensorC [314%Z]]),
       mkState (model true) []
         [CallModule [fp32 TensorC [314%Z]] [("mask", fp32 TensorC [271%Z])]]).
Proof. intros this H. injection H as <-. reflexivity. Qed.

(** On a single-stage pipeline the positional argument is converted at
    entry and back at exit; the keyword argument is not touched. *)
Example forward_single_stage :
  forall this,
    Float16Module_init Z cast plain identity (args_of true false 1%Z) = Ok this ->
    forward Z cast plain Z (worker true true false 1%Z) this
      [fp32 TensorC [314%Z]] [("mask", fp32 TensorC [271%Z])] (start true)
    = (Ok (PTuple [fp32 TensorC [312%Z]]),
       mkState (model true) []
         [CallModule [tensor_of Float16 [312%Z]]
            [("mask", fp32 TensorC [271%Z])]]).
Proof. intros this H. injection H as <-. reflexivity. Qed.

(** C5, the claim as written fails: with fp16 and bf16 both selected the
    construction succeeds, with the half convertor. *)
Lemma Float16Module_init_both_selected :
  fp16 Z (args_of true true 1%Z) = true
  /\ bf16 Z (args_of true true 1%Z) = true
  /\ Float16Module_init Z cast plain identity (args_of true true 1%Z)
     = Ok (mkFloat16Module (MegatronModule_init Z true None)
             (module_half Z identity) (half Z cast plain))
  /\ (forall e, Float16Module_init Z cast plain identity (args_of true true 1%Z)
                <> Raise e).
Proof. repeat split. intros e H. discriminate H. Qed.

(** Neither selected: the construction fails, by the theorem. *)
Lemma Float16Module_init_none_selected :
  Float16Module_init Z cast plain identity (args_of false false 1%Z)
  = Raise (Exception "should not be here").
Proof.
  exact (proj2 (proj1 (Float16Module_init_selection Z cast plain identity
                         (args_of false false 1%Z)))
           (conj eq_refl eq_refl)).
Defined.

(** C4, the claim as written fails: a caller that is the last stage,
    being the first stage as well, gets the native weight although
    share_word_embeddings is false; no error is raised. *)
Lemma word_embeddings_weight_single_stage_unshared :
  is_pipeline_last_stage Z Z (worker true true false 1%Z) true = true
  /\ share_word_embeddings Z (model false) = false
  /\ word_embeddings_weight Z Z (worker true true false 1%Z) (model false)
     = Ok NativeWeight
  /\ (forall e, word_embeddings_weight Z Z (worker true true false 1%Z)
                  (model false) <> Raise e).
Proof. repeat split. intros e H. discriminate H. Qed.

(** A last-stage caller after initialisation, by the theorem. *)
Lemma word_embeddings_weight_last_stage :
  word_embeddings_weight Z Z (worker false true false 2%Z)
    (mkMegatronModule true (Some native) (Some (factory 2 1 0)) None)
  = Ok HeadWeight
  /\ deref Z (mkMegatronModule true (Some native) (Some (factory 2 1 0)) None)
       HeadWeight
     = Some (factory 2 1 0).
Proof.
  exact (proj1 (proj2 (word_embeddings_weight_by_role Z Z
                         (worker false true false 2%Z)
                         (mkMegatronModule true (Some native)
                            (Some (factory 2 1 0)) None)))
           eq_refl eq_refl eq_refl (factory 2 1 0) eq_refl).
Defined.

(** Sharing off: the error, by the theorem. *)
Lemma initialize_word_embeddings_unshared :
  initialize_word_embeddings Z 0%Z Z (worker false true false 2%Z)
    (fun std => std) (start false)
  = (Raise (Exception
       "initialize_word_embeddings() was called but share_word_embeddings is false"),
     start false).
Proof.
  exact (initialize_word_embeddings_requires_sharing Z 0%Z Z
           (worker false true false 2%Z) (fun std => std) (start false) eq_refl).
Defined.

(** One stage: nothing happens, by the theorem. *)
Lemma initialize_word_embeddings_one_stage :
  initialize_word_embeddings Z 0%Z Z (worker true true true 1%Z)
    (fun std => std) (start true)
  = (Ok tt, start true).
Proof.
  exact (initialize_word_embeddings_single_stage Z 0%Z Z
           (worker true true true 1%Z) (fun std => std) (start true)
           eq_refl eq_refl).
Defined.

(** Vocabulary 100, hidden size 8, two stages, the distributed runtime
    down, on the last stage: by the theorem. *)
Lemma initialize_word_embeddings_two_stages_no_dist :
  exists s' p,
    initialize_word_embeddings Z 0%Z Z (worker false true false 2%Z)
      (fun std => std) (start true) = (Ok tt, s')
    /\ stdout Z Z s' = stdout Z Z (start true) ++ [sync_warning]
    /\ calls Z Z s' = calls Z Z (start true)
         ++ [CallVocabParallelEmbedding 100%Z 8%Z 2%Z]
    /\ word_embeddings Z (self Z Z s') = Some p
    /\ p_shared Z p = Some true
    /\ Forall (fun x => x = 0%Z) (t_data Z (p_tensor Z p))
    /\ t_shape Z (p_tensor Z p) = t_shape Z (p_tensor Z (factory 100 8 2))
    /\ language_model_weight Z (self Z Z s')
       = language_model_weight Z (self Z Z (start true))
    /\ share_word_embeddings Z (self Z Z s') = true
    /\ length (t_data Z (p_tensor Z p))
       = length (t_data Z (p_tensor Z (factory 100 8 2)))
    /\ t_data Z (p_tensor Z p)
       = repeat 0%Z (length (t_data Z (p_tensor Z (factory 100 8 2))))
    /\ t_class Z (p_tensor Z p) = t_class Z (p_tensor Z (factory 100 8 2))
    /\ t_backend Z (p_tensor Z p) = t_backend Z (p_tensor Z (factory 100 8 2))
    /\ t_layout Z (p_tensor Z p) = t_layout Z (p_tensor Z (factory 100 8 2))
    /\ t_dtype Z (p_tensor Z p) = t_dtype Z (p_tensor Z (factory 100 8 2)).
Proof.
  exact (initialize_word_embeddings_last_stage_no_dist Z 0%Z Z
           (worker false true false 2%Z) (fun std => std) (start true)
           eq_refl eq_refl eq_refl eq_refl eq_refl).
Defined.

(** The same run evaluated: 800 zeros, one warning, no collective. *)
Example two_stages_no_dist_run :
  let r := initialize_word_embeddings Z 0%Z Z (worker false true false 2%Z)
             (fun std => std) (start true) in
  fst r = Ok tt
  /\ stdout Z Z (snd r) = [sync_warning]
  /\ calls Z Z (snd r) = [CallVocabParallelEmbedding 100%Z 8%Z 2%Z]
  /\ option_map (fun p => t_data Z (p_tensor Z p))
       (word_embeddings Z (self Z Z (snd r)))
     = Some (repeat 0%Z 800).
Proof. vm_compute. repeat split. Qed.

(** The weight the last stage allocates is tagged shared; the native
    weight carries no tag. *)
Example head_weight_is_shared :
  let r := initialize_word_embeddings Z 0%Z Z (worker false true false 2%Z)
             (fun std => std) (start true) in
  option_map (param_is_not_shared Z) (word_embeddings Z (self Z Z (snd r)))
  = Some false
  /\ param_is_not_shared Z native = true.
Proof. vm_compute. split; reflexivity. Qed.

(** With the runtime up the last stage issues the collective on its
    zero-filled weight and writes no warning. *)
Example two_stages_dist_run :
  let r := initialize_word_embeddings Z 0%Z Z
             (mkRuntime (args_of true false 2%Z) (fun _ => false) (fun _ => true)
                true (fun _ _ init => factory 2 1 init) (fun d => map Z.succ d))
             (fun std => std) (start true) in
  fst r = Ok tt
  /\ stdout Z Z (snd r) = []
  /\ calls Z Z (snd r)
     = [CallVocabParallelEmbedding 100%Z 8%Z 2%Z; CallAllReduce [0%Z; 0%Z]]
  /\ option_map (fun p => t_data Z (p_tensor Z p))
       (word_embeddings Z (self Z Z (snd r)))
     = Some [1%Z; 1%Z].
Proof. vm_compute. repeat split. Qed.

(** ** Concrete runs of the further properties *)

(** A factory that always gives two elements, and a worker whose
    collective adds the elements [theirs] of its peer. *)
Definition small_factory (vocab hidden : Z) (init : Z) : parameter Z :=
  factory 2 1 init.

Definition peer (first last : bool) (theirs : list Z) : runtime Z Z :=
  mkRuntime (args_of true false 2%Z) (fun _ => first) (fun _ => last) true
            small_factory (fun d => elementwise_sum Z Z.add d theirs).

Definition wrapper : Float16Module Z :=
  mkFloat16Module (MegatronModule_init Z true None) (module_half Z identity)
                  (half Z cast plain).

(** Without the premise of the fusion law the two sides differ: the
    second walk enters the list the first conversion put in place of a
    leaf. *)
Example fusion_needs_leaf_results :
  conversion_helper Z
    (conversion_helper Z (PAtom PyNone) (fun v => PList [v]))
    (fun _ => PAtom (PyInt 0))
  = PList [PAtom (PyInt 0)]
  /\ conversion_helper Z (PAtom PyNone)
       (fun v => (fun _ => PAtom (PyInt 0)) (PList [v]))
     = PAtom (PyInt 0).
Proof. split; reflexivity. Qed.

Lemma conversion_helper_fusion_tree :
  conversion_helper Z
    (conversion_helper Z tree (half_conversion Z (half Z cast plain)))
    (float_conversion Z cast plain)
  = conversion_helper Z tree
      (fun v => float_conversion Z cast plain
                  (half_conversion Z (half Z cast plain) v)).
Proof.
  apply (conversion_helper_fusion Z (half_conversion Z (half Z cast plain))
           (float_conversion Z cast plain) tree).
  reflexivity.
Defined.



Lemma Float16Module_init_consistent_wrapper :
  share_word_embeddings Z (base Z wrapper) = true
  /\ m_forward Z (module Z wrapper) = m_forward Z identity
  /\ (m_dtype Z (module Z wrapper) = Float16
      \/ m_dtype Z (module Z wrapper) = BFloat16)
  /\ (forall t, t_dtype Z t = Float32 ->
        t_dtype Z (float16_convertor Z wrapper t) = m_dtype Z (module Z wrapper)).
Proof.
  apply (Float16Module_init_consistent Z cast plain identity
           (args_of true false 2%Z) wrapper).
  reflexivity.
Defined.

Lemma initialize_word_embeddings_both_roles :
  initialize_word_embeddings Z 0%Z Z (worker true true true 2%Z)
    (fun std => std) (start true)
  = (Raise AssertionError, start true).
Proof.
  apply (initialize_word_embeddings_asserts_disjoint_roles Z 0%Z Z
           (worker true true true 2%Z) (fun std => std) (start true));
    solve [reflexivity | discriminate].
Defined.

Lemma initialize_word_embeddings_first_stage_no_dist :
  let r := initialize_word_embeddings Z 0%Z Z (worker true false false 2%Z)
             (fun std => std) (start true) in
  fst r = Ok tt
  /\ stdout Z Z (snd r) = stdout Z Z (start true) ++ [sync_warning]
  /\ calls Z Z (snd r)
     = calls Z Z (start true)
       ++ (if is_pipeline_last_stage Z Z (worker true false false 2%Z) false
           then [factory_call Z Z (worker true false false 2%Z) (fun std => std)]
           else [])
  /\ language_model_weight Z (self Z Z (snd r))
     = language_model_weight Z (self Z Z (start true))
  /\ (is_pipeline_last_stage Z Z (worker true false false 2%Z) false = false ->
      self Z Z (snd r) = self Z Z (start true)).
Proof.
  apply (initialize_word_embeddings_without_distributed Z 0%Z Z
           (worker true false false 2%Z) (fun std => std) (start true));
    solve [reflexivity | discriminate].
Defined.

Lemma initialize_word_embeddings_middle_stage_run :
  initialize_word_embeddings Z 0%Z Z (worker false false true 4%Z)
    (fun std => std) (start true)
  = (Ok tt, start true).
Proof.
  apply (initialize_word_embeddings_middle_stage Z 0%Z Z
           (worker false false true 4%Z) (fun std => std) (start true));
    solve [reflexivity | discriminate].
Defined.

Lemma initialize_word_embeddings_first_stage_dist :
  let rt := peer true false [1%Z; 1%Z] in
  let r := initialize_word_embeddings Z 0%Z Z rt (fun std => std) (start true) in
  fst r = Ok tt
  /\ calls Z Z (snd r)
     = calls Z Z (start true) ++ [CallAllReduce (t_data Z (p_tensor Z native))]
  /\ stdout Z Z (snd r) = stdout Z Z (start true)
  /\ language_model_weight Z (self Z Z (snd r))
     = Some (set_data Z (all_reduce Z Z rt (t_data Z (p_tensor Z native))) native)
  /\ word_embeddings Z (self Z Z (snd r))
     = word_embeddings Z (self Z Z (start true)).
Proof.
  apply (initialize_word_embeddings_first_stage_reduces_native Z 0%Z Z
           (peer true false [1%Z; 1%Z]) (fun std => std) (start true) native);
    solve [reflexivity | discriminate].
Defined.

Lemma initialize_word_embeddings_last_stage_dist :
  let rt := peer false true [5%Z; 9%Z] in
  let r := initialize_word_embeddings Z 0%Z Z rt (fun std => std) (start true) in
  exists zeros p,
    fst r = Ok tt
    /\ Forall (fun x => x = 0%Z) zeros
    /\ length zeros = length (t_data Z (p_tensor Z (small_factory 100 8 2)))
    /\ calls Z Z (snd r)
       = calls Z Z (start true)
         ++ [factory_call Z Z rt (fun std => std); CallAllReduce zeros]
    /\ stdout Z Z (snd r) = stdout Z Z (start true)
    /\ word_embeddings Z (self Z Z (snd r)) = Some p
    /\ t_data Z (p_tensor Z p) = all_reduce Z Z rt zeros
    /\ p_shared Z p = Some true
    /\ language_model_weight Z (self Z Z (snd r))
       = language_model_weight Z (self Z Z (start true)).
Proof.
  apply (initialize_word_embeddings_last_stage_reduces_zeros Z 0%Z Z
           (peer false true [5%Z; 9%Z]) (fun std => std) (start true));
    solve [reflexivity | discriminate].
Defined.

(** The first stage holds [5; 9]; after both stages have run, so do both
    copies: by the theorem. *)
Lemma initialize_word_embeddings_two_workers :
  let r_first := initialize_word_embeddings Z 0%Z Z (peer true false [0%Z; 0%Z])
                   (fun std => std) (start true) in
  let r_last := initialize_word_embeddings Z 0%Z Z (peer false true [5%Z; 9%Z])
                  (fun std => std) (mkState (MegatronModule_init Z true None) [] []) in
  exists p_first p_last,
    fst r_first = Ok tt /\ fst r_last = Ok tt
    /\ language_model_weight Z (self Z Z (snd r_first)) = Some p_first
    /\ word_embeddings Z (self Z Z (snd r_last)) = Some p_last
    /\ t_data Z (p_tensor Z p_first) = t_data Z (p_tensor Z native)
    /\ t_data Z (p_tensor Z p_last) = t_data Z (p_tensor Z native).
Proof.
  apply (initialize_word_embeddings_synchronises_two_stages Z 0%Z Z Z.add
           (peer true false [0%Z; 0%Z]) (peer false true [5%Z; 9%Z])
           (fun std => std) (start true)
           (mkState (MegatronModule_init Z true None) [] []) native);
    solve [ reflexivity | discriminate | intros x; apply Z.add_0_r
          | intros x; apply Z.add_0_l ].
Defined.

(** The two runs evaluated. *)
Example two_workers_run :
  option_map (fun p => t_data Z (p_tensor Z p))
    (language_model_weight Z
       (self Z Z (snd (initialize_word_embeddings Z 0%Z Z
                         (peer true false [0%Z; 0%Z]) (fun std => std)
                         (start true)))))
  = Some [5%Z; 9%Z]
  /\ option_map (fun p => t_data Z (p_tensor Z p))
       (word_embeddings Z
          (self Z Z (snd (initialize_word_embeddings Z 0%Z Z
                            (peer false true [5%Z; 9%Z]) (fun std => std)
                            (mkState (MegatronModule_init Z true None) [] [])))))
     = Some [5%Z; 9%Z].
Proof. vm_compute. split; reflexivity. Qed.

Lemma initialize_word_embeddings_keeps_earlier_collective :
  In (CallAllReduce [1%Z])
     (calls Z Z (mkState (model true) [] [CallAllReduce [1%Z]])).
Proof.
  apply (initialize_word_embeddings_no_collective_without_distributed Z 0%Z Z
           (worker false true false 2%Z) (fun std => std)
           (mkState (model true) [] [CallAllReduce [1%Z]]) [1%Z]).
  - reflexivity.
  - left. reflexivity.
Defined.

Lemma word_embeddings_weight_after_initialize_last_stage :
  let rt := worker false true false 2%Z in
  let m' := self Z Z (snd (initialize_word_embeddings Z 0%Z Z rt
                             (fun std => std) (start true))) in
  word_embeddings_weight Z Z rt (self Z Z (start true))
  = Raise (AttributeError "word_embeddings")
  /\ word_embeddings_weight Z Z rt m' = Ok HeadWeight
  /\ exists p, deref Z m' HeadWeight = Some p /\ param_is_not_shared Z p = false.
Proof.
  apply (word_embeddings_weight_after_initialize Z 0%Z Z
           (worker false true false 2%Z) (fun std => std) (start true));
    solve [reflexivity | discriminate].
Defined.

End Concrete.

(** ** Runs on IEEE 754 elements

    The framework's float casts as round-to-nearest-even between the
    binary formats: float32 has 24 bits of precision, half 11, bfloat16
    8; the exponent of the infinities is 128 for float32 and bfloat16
    and 16 for half. *)
Module IEEE.

Definition format (d : dtype) : option (Z * Z) :=
  match d with
  | Float64 => Some (53, 1024)%Z
  | Float32 => Some (24, 128)%Z
  | Float16 => Some (11, 16)%Z
  | BFloat16 => Some (8, 128)%Z
  | _ => None
  end.

Definition round_to (prec emax : Z) (x : spec_float) : spec_float :=
  match x with
  | S754_finite s m e => binary_round prec emax s m e
  | _ => x
  end.

Definition cast (from to : dtype) (x : spec_float) : spec_float :=
  match format to with
  | Some (prec, emax) => round_to prec emax x
  | None => x
  end.

Definition plain (c : pyclass) : pyclass := TensorC.

Definition fp32 (xs : list spec_float) : pyval spec_float :=
  PTensor (mkTensor TensorC CUDA Strided Float32 [length xs] xs).

(** The float32 values nearest to 3.14, 2.71 and 1.0, the float32 value
    70000.0 and the largest finite float32. *)
Definition f3_14 : spec_float := S754_finite false 13170115 (-22).
Definition f2_71 : spec_float := S754_finite false 11366564 (-22).
Definition f1_0 : spec_float := S754_finite false 8388608 (-23).
Definition f70000 : spec_float := S754_finite false 8960000 (-7).
Definition fmax : spec_float := S754_finite false 16777215 104.

Definition tree : pyval spec_float :=
  PList [fp32 [f3_14]; PTuple [fp32 [f2_71]; fp32 [f1_0]]].

Example values_are_float32 :
  map (valid_binary 24 128) [f3_14; f2_71; f1_0; f70000; fmax]
  = [true; true; true; true; true].
Proof. reflexivity. Qed.

(** [[3.14, (2.71, 1.0)]] through half and back: 3.140625, 2.7109375
    and 1.0. *)
Example ieee_tree_round_trip :
  float16_to_fp32 spec_float cast plain
    (fp32_to_float16 spec_float tree (half spec_float cast plain))
  = PList [fp32 [S754_finite false 13172736 (-22)];
           PTuple [fp32 [S754_finite false 11370496 (-22)]; fp32 [f1_0]]].
Proof. vm_compute. reflexivity. Qed.



End IEEE.
